(** * oc-mirror v2: the workflow orchestrator of [pkg/cli/executor.go]

    A shallow embedding of the orchestration code: argument validation,
    mode resolution, the image collection aggregator, the mirror-to-disk,
    disk-to-mirror and prepare routines, and the registry watcher.

    Go strings are byte sequences and are modelled by [string]; a Go
    [error] value is [option error] with [None] for [nil]; a slice is a
    [list] (the model does not tell a nil slice from an empty one).
    Collaborators reached through interfaces or other packages are read
    from an environment record [Env]; what the main control flow does to
    the outside world is recorded as a chronological list of [Event]s.
    The routines are the flow of the goroutine that calls them; the
    goroutine of the registry and its watcher are put beside that flow
    where the commands are assembled ([beside_watcher]). *)

From Stdlib Require Import String Ascii List ZArith Bool Lia.
From stdpp Require Import base strings gmap list pretty.
Import ListNotations.

Local Open Scope string_scope.
Local Open Scope list_scope.

(** ** Package [strings] of the Go standard library (the functions used) *)

Module gostrings.

(** [strings.HasPrefix(s, prefix)] *)
Fixpoint HasPrefix (s prefix : string) : bool :=
  match prefix with
  | EmptyString => true
  | String p prefix' =>
      match s with
      | EmptyString => false
      | String c s' => if Ascii.eqb c p then HasPrefix s' prefix' else false
      end
  end.

(** [strings.Contains(s, substr)]: [substr] starts at some position of [s]. *)
Fixpoint Contains (s substr : string) : bool :=
  HasPrefix s substr
  || match s with
     | EmptyString => false
     | String _ s' => Contains s' substr
     end.

(** [s[n:]] for [n <= len(s)]. *)
Fixpoint drop (n : nat) (s : string) : string :=
  match n, s with
  | O, _ => s
  | S n', String _ s' => drop n' s'
  | S _, EmptyString => EmptyString
  end.

(** [strings.TrimPrefix(s, prefix)] *)
Definition TrimPrefix (s prefix : string) : string :=
  if HasPrefix s prefix then drop (String.length prefix) s else s.

(** [strings.Split(s, sep)] for a non-empty [sep] (the only use in the
    source is with ["://"]): [s] is cut at the non-overlapping occurrences
    of [sep], leftmost first.  [skip] counts the bytes of a separator still
    to be passed over, [cur] is the piece being built. *)
Fixpoint SplitFrom (sep : string) (skip : nat) (cur : string) (s : string)
  : list string :=
  match s with
  | EmptyString => [cur]
  | String c s' =>
      match skip with
      | S k => SplitFrom sep k cur s'
      | O =>
          if HasPrefix s sep
          then cur :: SplitFrom sep (String.length sep - 1) EmptyString s'
          else SplitFrom sep 0 (cur ++ String c EmptyString) s'
      end
  end.

Definition Split (s sep : string) : list string := SplitFrom sep 0 EmptyString s.

End gostrings.

(** ** Errors *)

(** Modelled from the spec: the error type [NormalStorageInterruptError],
    its constructor [NormalStorageInterruptErrorf] and its [Is] method are
    declared in a file of package [cli] that is not part of the sources
    at hand.  The spec describes the sentinel as distinguished by type
    identity, so an error chain matches it exactly when one of its links
    is a [NormalStorageInterruptError].  [errorString] stands for the
    errors built by [fmt.Errorf] and the collaborators, [wrapError] for an
    error that wraps another one. *)
Inductive error : Type :=
| errorString (s : string)
| NormalStorageInterruptError (message : string)
| wrapError (msg : string) (inner : error).

(** The [Error()] method. *)
Definition Error (e : error) : string :=
  match e with
  | errorString s => s
  | NormalStorageInterruptError m => m
  | wrapError m _ => m
  end.

(** [errors.Is(err, &NormalStorageInterruptError{})]: the target is a fresh
    pointer, so no link is identical to it and the walk along the chain is
    decided by the links' [Is] methods. *)
Fixpoint errors_Is_NormalStorageInterrupt (err : error) : bool :=
  match err with
  | errorString _ => false
  | NormalStorageInterruptError _ => true
  | wrapError _ inner => errors_Is_NormalStorageInterrupt inner
  end.

Definition NormalStorageInterruptErrorf (msg : string) : error :=
  NormalStorageInterruptError msg.

Definition is_nil (e : option error) : bool :=
  match e with None => true | Some _ => false end.

(** ** Constants of package [cli] *)

Definition dockerProtocol : string := "docker://".
Definition ociProtocol : string := "oci://".
Definition dirProtocol : string := "dir://".
Definition fileProtocol : string := "file://".
Definition releaseImageDir : string := "release-images".
Definition logsDir : string := "logs".
Definition workingDir : string := "working-dir".
Definition cacheRelativePath : string := ".oc-mirror/.cache".
Definition cacheEnvVar : string := "OC_MIRROR_CACHE".
Definition additionalImages : string := "additional-images".
Definition releaseImageExtractDir : string := "hold-release".
Definition operatorImageExtractDir : string := "hold-operator".
Definition signaturesDir : string := "signatures".
Definition registryLogFilename : string := "logs/registry.log".

(** ** Data model *)

Module v1alpha3.

(** Modelled from the spec: [v1alpha3.CopyImageSchema] is declared in
    package [api/v1alpha3], not part of the sources at hand.  It is the
    spec's WorkItem: a source reference, a destination reference and
    origin metadata.  The code at hand reads only [Destination]. *)
Record CopyImageSchema : Type := mkImage {
  Source : string;
  Destination : string;
  Origin : string
}.

End v1alpha3.

Module mirror.

(** Modelled from the spec: the mode type of [mirror.CopyOptions] is
    declared in package [mirror], not part of the sources at hand.  The
    spec gives the three modes; [ModeUnset] is the zero value the field
    holds before [Complete] or [CompletePrepare] assigns it. *)
Inductive WorkflowMode : Type :=
| ModeUnset
| MirrorToDisk
| DiskToMirror
| Prepare.

(** The fields of [mirror.GlobalOptions] that the orchestrator reads or
    writes.  [Port] is a [uint16]. *)
Record GlobalOptions : Type := mkGlobal {
  ConfigPath : string;
  LogLevel : string;
  WorkingDir : string;
  From : string;
  Port : Z
}.

(** The fields of [mirror.CopyOptions] that the orchestrator reads or
    writes. *)
Record CopyOptions : Type := mkOpts {
  Global : GlobalOptions;
  Mode : WorkflowMode;
  Destination : string;
  MultiArch : string;
  ImageType : string
}.

Definition IsMirrorToDisk (o : CopyOptions) : bool :=
  match Mode o with MirrorToDisk => true | _ => false end.

Definition IsDiskToMirror (o : CopyOptions) : bool :=
  match Mode o with DiskToMirror => true | _ => false end.

End mirror.

(** The parsed image set configuration is opaque to the orchestrator. *)
Definition ImageSetConfiguration : Type := string.

(** [ExecutorSchema]: the options, the configuration and the two strings
    are kept as they are.  The archiver and the extractor, which
    [Complete] constructs for one mode each, are kept as the flag "has
    been constructed" ([false] is the nil interface value); the
    collaborators that [Complete] and [CompletePrepare] construct on every
    path that returns nil are taken as constructed.  What a collaborator
    does when called is in [Env]. *)
Record ExecutorSchema : Type := mkExec {
  Config : ImageSetConfiguration;
  Opts : mirror.CopyOptions;
  LocalStorageFQDN : string;
  LocalStorageDisk : string;
  MirrorArchiver : bool;
  MirrorUnArchiver : bool
}.

(** ** Validate *)

(** What a call does from the caller's point of view: it returns, it blocks
    for ever (a send on a channel nobody receives from), or it panics (an
    index out of range, a method called on a nil interface value; for a
    command, also the panic of the watcher, which ends the process). *)
Inductive Outcome (A : Type) : Type :=
| Returned (a : A)
| Blocked
| Panicked.
Arguments Returned {A} a.
Arguments Blocked {A}.
Arguments Panicked {A}.

Definition err_config_mandatory : error :=
  errorString "use the --config flag it is mandatory".
Definition err_docker_needs_from : error :=
  errorString "when destination is docker://, diskToMirror workflow is assumed, and the --from argument become mandatory".
Definition err_file_no_from : error :=
  errorString "when destination is file://, mirrorToDisk workflow is assumed, and the --from argument is not needed".
Definition err_from_prefix : error :=
  errorString "when --from is used, it must have file:// prefix".
Definition err_dest_protocol : error :=
  errorString "destination must have either file:// (mirror to disk) or docker:// (diskToMirror) protocol prefixes".

(** The body of [Validate] once [dest[0]] is known. *)
Definition Validate_dest (o : ExecutorSchema) (dest0 : string) : option error :=
  let from := mirror.From (mirror.Global (Opts o)) in
  if gostrings.Contains dest0 dockerProtocol && String.eqb from ""
  then Some err_docker_needs_from
  else if gostrings.Contains dest0 fileProtocol && negb (String.eqb from "")
  then Some err_file_no_from
  else if (0 <? String.length from)%nat && negb (gostrings.Contains from fileProtocol)
  then Some err_from_prefix
  else if gostrings.Contains dest0 fileProtocol || gostrings.Contains dest0 dockerProtocol
  then None
  else Some err_dest_protocol.

(** [func (o ExecutorSchema) Validate(dest []string) error].  The receiver
    is a value: the function reads [o] and returns an error, nothing
    else.  [dest[0]] is evaluated after the config check and panics on an
    empty argument list. *)
Definition Validate (o : ExecutorSchema) (dest : list string)
  : Outcome (option error) :=
  if (String.length (mirror.ConfigPath (mirror.Global (Opts o))) =? 0)%nat
  then Returned (Some err_config_mandatory)
  else match dest with
       | [] => Panicked
       | dest0 :: _ => Returned (Validate_dest o dest0)
       end.

(** [func (o ExecutorSchema) ValidatePrepare(dest []string) error] *)
Definition ValidatePrepare (o : ExecutorSchema) (dest : list string)
  : option error :=
  let g := mirror.Global (Opts o) in
  if (String.length (mirror.ConfigPath g) =? 0)%nat
  then Some err_config_mandatory
  else if String.eqb (mirror.From g) ""
  then Some (errorString "with prepare command, the --from argument become mandatory(prefix : file://)")
  else if negb (gostrings.Contains (mirror.From g) fileProtocol)
  then Some err_from_prefix
  else None.

(** ** Effects: the world, the events and the environment *)

Inductive Collector : Type := Release | Operator | AdditionalImages.

Inductive LogLevel : Type := LvlInfo | LvlDebug | LvlTrace | LvlWarn | LvlError.

(** The three clock readings of a run. *)
Inductive TimeReading : Type := startTime | collectionFinish | mirrorFinish.

(** The arguments of a log call, kept unformatted. *)
Inductive LogArg : Type :=
| AStr (s : string)
| AInt (n : Z)
| AErr (e : error)
| AMode (m : mirror.WorkflowMode)
| ATime (t : TimeReading).

(** What the main control flow does to the outside world, in program
    order.  A call to a collaborator is recorded with the arguments it is
    given. *)
Inductive Event : Type :=
| EvLogSetLevel (level : string)
| EvLog (lvl : LogLevel) (format : string) (args : list LogArg)
| EvStderr (msg : string)
| EvRemoveAll (path : string)
| EvMkdirAll (path : string)
| EvReadConfig (path : string)
| EvCreate (path : string)
| EvWrite (path : string) (content : string)
| EvClose (path : string)
| EvGoStartLocalRegistry
| EvCollect (c : Collector)
| EvBatchWorker (imgs : list v1alpha3.CopyImageSchema) (opts : mirror.CopyOptions)
| EvSend (sig : error)
| EvBuildArchive (imgs : list v1alpha3.CopyImageSchema)
| EvArchiverClose
| EvUnarchive
| EvUnArchiverClose
| EvIDMSGenerator (imgs : list v1alpha3.CopyImageSchema) (opts : mirror.CopyOptions)
| EvMirrorCheck (dest : string) (opts : mirror.CopyOptions).

(** The package-level [registryLogFile *os.File]: nil until
    [PrepareStorageAndLogs] creates the file, then open, then closed. *)
Inductive FileState : Type := FileNil | FileOpen | FileClosed.

(** The mutable state: the executor behind the pointer receiver and the
    package-level log file handle. *)
Record World : Type := mkWorld {
  exec : ExecutorSchema;
  registryLogFile : FileState
}.

(** The collaborators and the operating system, as the orchestrator sees
    them: what each call returns. *)
Record Env : Type := mkEnv {
  os_MkdirAll : string -> option error;
  os_Getenv : string -> string;
  os_UserHomeDir : string * option error;
  os_Create : string -> option error;
  file_Write : string -> string -> option error;
  filepath_Join : string -> string -> string;
  config_ReadConfig : string -> ImageSetConfiguration * option error;
  archive_NewMirrorArchive : option error;
  archive_NewArchiveExtractor : option error;
  collect : Collector -> list v1alpha3.CopyImageSchema * option error;
  Batch_Worker : list v1alpha3.CopyImageSchema -> mirror.CopyOptions -> option error;
  MirrorArchiver_BuildArchive : list v1alpha3.CopyImageSchema -> string * option error;
  MirrorUnArchiver_Unarchive : option error;
  ClusterResources_IDMSGenerator :
    list v1alpha3.CopyImageSchema -> mirror.CopyOptions -> option error;
  Mirror_Check : string -> mirror.CopyOptions -> bool * option error;
  (** is the watcher still receiving on the interrupt channel when the
      main flow sends on it?  The channel is unbuffered. *)
  watcher_receives : bool
}.

(** A computation: from a world to an outcome, the world it leaves and the
    events it emitted. *)
Record Result (A : Type) : Type := mkResult {
  outcome : Outcome A;
  world : World;
  events : list Event
}.
Arguments mkResult {A} _ _ _.
Arguments outcome {A} _.
Arguments world {A} _.
Arguments events {A} _.

Definition M (A : Type) : Type := World -> Result A.

#[global] Instance M_ret : MRet M :=
  fun A a w => mkResult (Returned a) w [].

#[global] Instance M_bind : MBind M :=
  fun A B k m w =>
    match m w with
    | mkResult (Returned a) w1 ev1 =>
        match k a w1 with
        | mkResult out w2 ev2 => mkResult out w2 (ev1 ++ ev2)
        end
    | mkResult Blocked w1 ev1 => mkResult Blocked w1 ev1
    | mkResult Panicked w1 ev1 => mkResult Panicked w1 ev1
    end.

Definition emit (e : Event) : M unit :=
  fun w => mkResult (Returned tt) w [e].

Definition block {A} : M A := fun w => mkResult Blocked w [].
Definition panic {A} : M A := fun w => mkResult Panicked w [].

Definition get_o : M ExecutorSchema :=
  fun w => mkResult (Returned (exec w)) w [].

Definition modify_o (f : ExecutorSchema -> ExecutorSchema) : M unit :=
  fun w => mkResult (Returned tt) (mkWorld (f (exec w)) (registryLogFile w)) [].

Definition get_logfile : M FileState :=
  fun w => mkResult (Returned (registryLogFile w)) w [].

Definition set_logfile (f : FileState) : M unit :=
  fun w => mkResult (Returned tt) (mkWorld (exec w) f) [].

(** [defer d] in front of the rest [m] of a function body: [d] runs when
    [m] returns or panics, not when it blocks. *)
Definition with_defer {A} (d : M unit) (m : M A) : M A :=
  fun w =>
    match m w with
    | mkResult Blocked w1 ev1 => mkResult Blocked w1 ev1
    | mkResult out w1 ev1 =>
        match d w1 with
        | mkResult (Returned _) w2 ev2 => mkResult out w2 (ev1 ++ ev2)
        | mkResult Blocked w2 ev2 => mkResult Blocked w2 (ev1 ++ ev2)
        | mkResult Panicked w2 ev2 => mkResult Panicked w2 (ev1 ++ ev2)
        end
    end.

(** Field updates. *)
Definition with_Opts (f : mirror.CopyOptions -> mirror.CopyOptions)
  (o : ExecutorSchema) : ExecutorSchema :=
  mkExec (Config o) (f (Opts o)) (LocalStorageFQDN o) (LocalStorageDisk o)
    (MirrorArchiver o) (MirrorUnArchiver o).

Definition set_Mode (m : mirror.WorkflowMode) (p : mirror.CopyOptions) :=
  mirror.mkOpts (mirror.Global p) m (mirror.Destination p) (mirror.MultiArch p)
    (mirror.ImageType p).
Definition set_Destination (d : string) (p : mirror.CopyOptions) :=
  mirror.mkOpts (mirror.Global p) (mirror.Mode p) d (mirror.MultiArch p)
    (mirror.ImageType p).
Definition set_MultiArch (a : string) (p : mirror.CopyOptions) :=
  mirror.mkOpts (mirror.Global p) (mirror.Mode p) (mirror.Destination p) a
    (mirror.ImageType p).
Definition set_ImageType (t : string) (p : mirror.CopyOptions) :=
  mirror.mkOpts (mirror.Global p) (mirror.Mode p) (mirror.Destination p)
    (mirror.MultiArch p) t.
Definition set_WorkingDir (d : string) (p : mirror.CopyOptions) :=
  let g := mirror.Global p in
  mirror.mkOpts
    (mirror.mkGlobal (mirror.ConfigPath g) (mirror.LogLevel g) d (mirror.From g)
       (mirror.Port g))
    (mirror.Mode p) (mirror.Destination p) (mirror.MultiArch p) (mirror.ImageType p).
Definition set_Config (c : ImageSetConfiguration) (o : ExecutorSchema) :=
  mkExec c (Opts o) (LocalStorageFQDN o) (LocalStorageDisk o)
    (MirrorArchiver o) (MirrorUnArchiver o).
Definition set_LocalStorageFQDN (s : string) (o : ExecutorSchema) :=
  mkExec (Config o) (Opts o) s (LocalStorageDisk o)
    (MirrorArchiver o) (MirrorUnArchiver o).
Definition set_LocalStorageDisk (s : string) (o : ExecutorSchema) :=
  mkExec (Config o) (Opts o) (LocalStorageFQDN o) s
    (MirrorArchiver o) (MirrorUnArchiver o).
Definition set_MirrorArchiver (b : bool) (o : ExecutorSchema) :=
  mkExec (Config o) (Opts o) (LocalStorageFQDN o) (LocalStorageDisk o)
    b (MirrorUnArchiver o).
Definition set_MirrorUnArchiver (b : bool) (o : ExecutorSchema) :=
  mkExec (Config o) (Opts o) (LocalStorageFQDN o) (LocalStorageDisk o)
    (MirrorArchiver o) b.

(** [strconv.Itoa] *)
Definition Itoa (n : Z) : string := pretty n.

(** The line feed of ["\n"]. *)
Definition LF : string := String (ascii_of_nat 10) EmptyString.

(** ** Setup: [Complete] and [CompletePrepare] *)

Definition nonnil (e : option error) : bool := negb (is_nil e).

(** [os.MkdirAll(path, 0755)] *)
Definition MkdirAll (E : Env) (path : string) : M (option error) :=
  emit (EvMkdirAll path);; mret (os_MkdirAll E path).

(** [func (o *ExecutorSchema) setupLogsLevelAndDir() error] *)
Definition setupLogsLevelAndDir (E : Env) : M (option error) :=
  o ← get_o;
  emit (EvLogSetLevel (mirror.LogLevel (mirror.Global (Opts o))));;
  emit (EvRemoveAll logsDir);;
  err ← MkdirAll E logsDir;
  match err with
  | Some e => emit (EvLog LvlError " %v " [AErr e]);; mret (Some e)
  | None => mret None
  end.

(** One step of [setupWorkingDir]: create [dir], log and hand back the
    error if that fails, go on with [k] otherwise. *)
Definition mkdir_or_fail (E : Env) (dir : string) (k : M (option error))
  : M (option error) :=
  err ← MkdirAll E dir;
  match err with
  | Some e => emit (EvLog LvlError " %v " [AErr e]);; mret (Some e)
  | None => k
  end.

(** [func (o *ExecutorSchema) setupWorkingDir() error] *)
Definition setupWorkingDir (E : Env) : M (option error) :=
  o ← get_o;
  let wd := mirror.WorkingDir (mirror.Global (Opts o)) in
  mkdir_or_fail E wd (
  emit (EvLog LvlTrace "creating signatures directory %s "
          [AStr (wd ++ "/" ++ signaturesDir)]);;
  mkdir_or_fail E (wd ++ "/" ++ signaturesDir) (
  emit (EvLog LvlTrace "creating release images directory %s "
          [AStr (wd ++ "/" ++ releaseImageDir)]);;
  mkdir_or_fail E (wd ++ "/" ++ releaseImageDir) (
  emit (EvLog LvlTrace "creating release cache directory %s "
          [AStr (wd ++ "/" ++ releaseImageExtractDir)]);;
  mkdir_or_fail E (wd ++ "/" ++ releaseImageExtractDir) (
  emit (EvLog LvlTrace "creating operator cache directory %s "
          [AStr (wd ++ "/" ++ operatorImageExtractDir)]);;
  mkdir_or_fail E (wd ++ "/" ++ operatorImageExtractDir) (
  mret None))))).

(** [func (o *ExecutorSchema) setupLocalStorageDir() error] *)
Definition setupLocalStorageDir (E : Env) : M (option error) :=
  let requestedCachePath := os_Getenv E cacheEnvVar in
  let mk : M (option error) :=
    o ← get_o;
    err ← MkdirAll E (LocalStorageDisk o);
    match err with
    | Some e =>
        emit (EvLog LvlError
                "unable to setp folder for oc-mirror local storage: %v " [AErr e]);;
        mret (Some e)
    | None => mret None
    end in
  if String.eqb requestedCachePath ""
  then
    match os_UserHomeDir E with
    | (_, Some e) => mret (Some e)
    | (homeDir, None) =>
        modify_o (set_LocalStorageDisk (filepath_Join E homeDir cacheRelativePath));;
        mk
    end
  else
    modify_o (set_LocalStorageDisk
                (filepath_Join E requestedCachePath cacheRelativePath));;
    mk.

(** The "logic to check mode" of [Complete]: sets the mode and hands back
    [rootDir]. *)
Definition check_mode (arg0 : string) : M string :=
  if gostrings.Contains arg0 fileProtocol then
    modify_o (with_Opts (set_Mode mirror.MirrorToDisk));;
    let rootDir := gostrings.TrimPrefix arg0 fileProtocol in
    emit (EvLog LvlDebug "destination %s " [AStr rootDir]);;
    mret rootDir
  else if gostrings.Contains arg0 dockerProtocol then
    o ← get_o;
    let rootDir :=
      gostrings.TrimPrefix (mirror.From (mirror.Global (Opts o))) fileProtocol in
    modify_o (with_Opts (set_Mode mirror.DiskToMirror));;
    mret rootDir
  else
    emit (EvLog LvlError
            "unable to determine the mode (the destination must be either file:// or docker://)"
            []);;
    mret "".

(** [func (o *ExecutorSchema) Complete(args []string) error].  The
    constructors of the collectors, of the batch worker and of the other
    collaborators that cannot fail leave no trace in the model. *)
Definition Complete (E : Env) (args : list string) : M (option error) :=
  err ← setupLogsLevelAndDir E;
  if nonnil err then mret err else
  o ← get_o;
  let path := mirror.ConfigPath (mirror.Global (Opts o)) in
  emit (EvLog LvlDebug "imagesetconfig file %s " [AStr path]);;
  emit (EvReadConfig path);;
  match config_ReadConfig E path with
  | (_, Some e) => mret (Some e)
  | (cfg, None) =>
      emit (EvLog LvlTrace "imagesetconfig : %v " [AStr cfg]);;
      modify_o (set_Config cfg);;
      match args with
      | [] => panic
      | arg0 :: _ =>
          rootDir ← check_mode arg0;
          modify_o (with_Opts (set_Destination arg0));;
          modify_o (with_Opts (set_WorkingDir (filepath_Join E rootDir workingDir)));;
          o ← get_o;
          emit (EvLog LvlInfo "mode %s " [AMode (mirror.Mode (Opts o))]);;
          modify_o (set_LocalStorageFQDN
                      ("localhost:" ++ Itoa (mirror.Port (mirror.Global (Opts o)))));;
          err ← setupWorkingDir E;
          if nonnil err then mret err else
          err ← setupLocalStorageDir E;
          if nonnil err then mret err else
          o ← get_o;
          if mirror.IsMirrorToDisk (Opts o) then
            match archive_NewMirrorArchive E with
            | Some e => mret (Some e)
            | None => modify_o (set_MirrorArchiver true);; mret None
            end
          else if mirror.IsDiskToMirror (Opts o) then
            match archive_NewArchiveExtractor E with
            | Some e => mret (Some e)
            | None => modify_o (set_MirrorUnArchiver true);; mret None
            end
          else mret None
      end
  end.

(** [func (o *ExecutorSchema) CompletePrepare(args []string) error].
    [strings.Split(From, "://")[1]] panics when [From] holds no ["://"]. *)
Definition CompletePrepare (E : Env) (args : list string) : M (option error) :=
  err ← setupLogsLevelAndDir E;
  if nonnil err then mret err else
  o ← get_o;
  let path := mirror.ConfigPath (mirror.Global (Opts o)) in
  emit (EvLog LvlDebug "imagesetconfig file %s " [AStr path]);;
  emit (EvReadConfig path);;
  match config_ReadConfig E path with
  | (_, Some e) => mret (Some e)
  | (cfg, None) =>
      emit (EvLog LvlTrace "imagesetconfig : %v " [AStr cfg]);;
      modify_o (set_Config cfg);;
      match gostrings.Split (mirror.From (mirror.Global (Opts o))) "://" with
      | _ :: dir :: _ =>
          modify_o (with_Opts (set_WorkingDir (filepath_Join E dir workingDir)));;
          modify_o (set_LocalStorageFQDN
                      ("localhost:" ++ Itoa (mirror.Port (mirror.Global (Opts o)))));;
          modify_o (with_Opts (set_Mode mirror.Prepare));;
          o ← get_o;
          emit (EvLog LvlInfo "mode %s " [AMode (mirror.Mode (Opts o))]);;
          setupWorkingDir E
      | _ => panic
      end
  end.

(** ** Cleanup and the collection aggregator *)

(** [Close] of [os.File] on the registry log file: fails on a nil handle and
    on a handle that was closed before. *)
Definition File_Close (st : FileState) : option error :=
  match st with
  | FileOpen => None
  | FileClosed => Some (errorString "close logs/registry.log: file already closed")
  | FileNil => Some (errorString "invalid argument")
  end.

(** [func cleanUp()] *)
Definition cleanUp : M unit :=
  st ← get_logfile;
  emit (EvClose registryLogFilename);;
  (match st with FileOpen => set_logfile FileClosed | _ => mret tt end);;
  (match File_Close st with
   | Some e =>
       emit (EvStderr ("error closing log file " ++ registryLogFilename ++ ": "
                         ++ Error e ++ LF))
   | None => mret tt
   end);;
  emit (EvRemoveAll logsDir).

(** [func mergeImages(base, in []v1alpha3.CopyImageSchema)] *)
Definition mergeImages (base in_ : list v1alpha3.CopyImageSchema)
  : list v1alpha3.CopyImageSchema :=
  base ++ in_.

Definition len {A} (l : list A) : Z := Z.of_nat (length l).

(** [func (o *ExecutorSchema) CollectAll(ctx) ([]v1alpha3.CopyImageSchema, error)] *)
Definition CollectAll (E : Env)
  : M (list v1alpha3.CopyImageSchema * option error) :=
  let allRelatedImages : list v1alpha3.CopyImageSchema := [] in
  (* do releases *)
  emit (EvCollect Release);;
  match collect E Release with
  | (_, Some e) => cleanUp;; mret ([], Some e)
  | (imgs, None) =>
  emit (EvLog LvlInfo "total release images to copy %d " [AInt (len imgs)]);;
  modify_o (with_Opts (set_ImageType "release"));;
  let allRelatedImages := mergeImages allRelatedImages imgs in
  (* do operators *)
  emit (EvCollect Operator);;
  match collect E Operator with
  | (_, Some e) => cleanUp;; mret ([], Some e)
  | (imgs, None) =>
  emit (EvLog LvlInfo "total operator images to copy %d " [AInt (len imgs)]);;
  modify_o (with_Opts (set_ImageType "operator"));;
  let allRelatedImages := mergeImages allRelatedImages imgs in
  (* do additionalImages *)
  emit (EvCollect AdditionalImages);;
  match collect E AdditionalImages with
  | (_, Some e) => cleanUp;; mret ([], Some e)
  | (imgs, None) =>
  emit (EvLog LvlInfo "total additional images to copy %d " [AInt (len imgs)]);;
  let allRelatedImages := mergeImages allRelatedImages imgs in
  mret (allRelatedImages, None)
  end end end.

(** ** The mode-specific routines and [Run] *)

(** [o.localStorageInterruptChannel <- sig]: the send completes when the
    watcher receives, and never otherwise. *)
Definition send (E : Env) (sig : error) : M unit :=
  if watcher_receives E then emit (EvSend sig) else block.

Definition log_starting_local_storage : M unit :=
  o ← get_o;
  emit (EvLog LvlInfo "starting local storage on localhost:%v"
          [AInt (mirror.Port (mirror.Global (Opts o)))]).

(** The three closing [o.Log.Info] calls of a run. *)
Definition log_times : M unit :=
  emit (EvLog LvlInfo "start time      : %v" [ATime startTime]);;
  emit (EvLog LvlInfo "collection time : %v" [ATime collectionFinish]);;
  emit (EvLog LvlInfo "mirror time     : %v" [ATime mirrorFinish]).

Definition interruptSig : error :=
  NormalStorageInterruptErrorf
    "end of mirroring to disk. Stopping local storage to prepare the archive".

(** [func (o *ExecutorSchema) RunMirrorToDisk(cmd, args) error].
    [o.MirrorArchiver.BuildArchive(...)] on an archiver that was not
    constructed is a call on the nil interface value: it panics, and no
    deferred call is registered at that point.  The [go] statement only
    starts the goroutine of the registry; what that goroutine does to the
    process is in [beside_watcher].  The test of [err] after the three time
    logs is dead: [err] is nil there. *)
Definition RunMirrorToDisk (E : Env) : M (option error) :=
  log_starting_local_storage;;
  emit EvGoStartLocalRegistry;;
  r ← CollectAll E;
  match r with
  | (_, Some e) => mret (Some e)
  | (allImages, None) =>
  (* call the batch worker *)
  o ← get_o;
  emit (EvBatchWorker allImages (Opts o));;
  match Batch_Worker E allImages (Opts o) with
  | Some e => mret (Some e)
  | None =>
  (* first stop the registry *)
  send E interruptSig;;
  (* next, generate the archive *)
  if negb (MirrorArchiver o) then panic else
  emit (EvBuildArchive allImages);;
  match MirrorArchiver_BuildArchive E allImages with
  | (_, Some e) => mret (Some e)
  | (archiveFile, None) =>
  with_defer (emit EvArchiverClose) (
    emit (EvLog LvlInfo "archive file generated: %v " [AStr archiveFile]);;
    log_times;;
    mret None)
  end end end.

(** [func (o *ExecutorSchema) RunDiskToMirror(cmd, args) error].
    [o.MirrorUnArchiver.Unarchive()] on an extractor that was not
    constructed is a call on the nil interface value: it panics before
    anything is done. *)
Definition RunDiskToMirror (E : Env) : M (option error) :=
  (* extract the archive *)
  o ← get_o;
  if negb (MirrorUnArchiver o) then panic else
  emit EvUnarchive;;
  match MirrorUnArchiver_Unarchive E with
  | Some e => emit (EvLog LvlError " %v " [AErr e]);; mret (Some e)
  | None =>
  with_defer (emit EvUnArchiverClose) (
    log_starting_local_storage;;
    emit EvGoStartLocalRegistry;;
    r ← CollectAll E;
    match r with
    | (_, Some e) => mret (Some e)
    | (allImages, None) =>
    o ← get_o;
    emit (EvBatchWorker allImages (Opts o));;
    match Batch_Worker E allImages (Opts o) with
    | Some e => mret (Some e)
    | None =>
    (* create IDMS/ITMS *)
    emit (EvIDMSGenerator allImages (Opts o));;
    match ClusterResources_IDMSGenerator E allImages (Opts o) with
    | Some e => mret (Some e)
    | None => log_times;; mret None
    end end end)
  end.

(** [func (o *ExecutorSchema) Run(cmd, args) error].  A panic of the
    routine passes through [Run] before [defer cleanUp()] is reached. *)
Definition Run (E : Env) : M (option error) :=
  (* make sure we always get multi-arch images *)
  modify_o (with_Opts (set_MultiArch "all"));;
  o ← get_o;
  err ← (if mirror.IsMirrorToDisk (Opts o)
         then RunMirrorToDisk E
         else RunDiskToMirror E);
  match err with
  | Some e => cleanUp;; mret (Some e)
  | None => with_defer cleanUp (mret None)
  end.

(** ** The prepare path *)

Definition err_not_in_cache : error :=
  errorString ("all images necessary for mirroring are not available in the cache. "
                 ++ LF ++ "please re-run the mirror to disk process").

(** The loop over [allImages] of [RunPrepare], on the three variables it
    updates. *)
Fixpoint check_images (E : Env) (imgs : list v1alpha3.CopyImageSchema)
  (imagesAvailable : gmap string bool) (atLeastOneMissing : bool) (buff : string)
  : M (gmap string bool * bool * string) :=
  match imgs with
  | [] => mret (imagesAvailable, atLeastOneMissing, buff)
  | img :: rest =>
      let dest := v1alpha3.Destination img in
      let buff := (buff ++ (dest ++ LF))%string in
      o ← get_o;
      emit (EvMirrorCheck dest (Opts o));;
      let '(exists_, err) := Mirror_Check E dest (Opts o) in
      (match err with
       | Some e =>
           emit (EvLog LvlWarn "unable to check existence of %s in local cache: %v"
                   [AStr dest; AErr e])
       | None => mret tt
       end);;
      let atLeastOneMissing :=
        if nonnil err || negb exists_ then true else atLeastOneMissing in
      check_images E rest (<[dest := exists_]> imagesAvailable) atLeastOneMissing buff
  end.

(** The loop over [imagesAvailable]; Go leaves the order of a map range
    unspecified, the model takes the order of [map_to_list] and the
    theorems below do not depend on it. *)
Fixpoint log_missing (entries : list (string * bool)) : M unit :=
  match entries with
  | [] => mret tt
  | (img, exists_) :: rest =>
      (if negb exists_ then emit (EvLog LvlError "%s" [AStr img]) else mret tt);;
      log_missing rest
  end.

(** [func (o *ExecutorSchema) RunPrepare(cmd, args) error]: the flow of the
    calling goroutine.  As in the two routines above, the [go] statement
    only starts the goroutine of the registry; the process that runs this
    flow beside that goroutine and the watcher is [prepareCmd_Run]. *)
Definition RunPrepare (E : Env) : M (option error) :=
  (* creating file for storing list of cached images *)
  let cachedImagesFilePath := filepath_Join E logsDir "cached-images.txt" in
  emit (EvCreate cachedImagesFilePath);;
  match os_Create E cachedImagesFilePath with
  | Some e => mret (Some e)
  | None =>
  with_defer (emit (EvClose cachedImagesFilePath)) (
    log_starting_local_storage;;
    emit EvGoStartLocalRegistry;;
    r ← CollectAll E;
    match r with
    | (_, Some e) => mret (Some e)
    | (allImages, None) =>
    st ← check_images E allImages ∅ false "";
    let '(imagesAvailable, atLeastOneMissing, buff) :=
      (st : gmap string bool * bool * string) in
    emit (EvWrite cachedImagesFilePath buff);;
    match file_Write E cachedImagesFilePath buff with
    | Some e => mret (Some e)
    | None =>
    if atLeastOneMissing then
      emit (EvLog LvlError "missing images: " []);;
      log_missing (map_to_list imagesAvailable);;
      mret (Some err_not_in_cache)
    else
      emit (EvLog LvlInfo
              "all %d images required for mirroring are available in local cache. You may proceed with mirroring from disk to disconnected registry"
              [AInt (Z.of_nat (size imagesAvailable))]);;
      emit (EvLog LvlInfo "full list in : %s" [AStr cachedImagesFilePath]);;
      mret None
    end end)
  end.

(** ** The registry watcher *)

(** [func startLocalRegistry(reg, errchan)]: what [ListenAndServe] returns
    is sent on the channel as it is, nil included. *)
Definition startLocalRegistry (listenAndServe : option error) : option error :=
  listenAndServe.

Inductive WatcherOutcome : Type :=
| WatcherReturns
| WatcherPanics (err : error).

(** [func panicOnRegistryError(errchan)], as a function of the value
    received from the channel. *)
Definition panicOnRegistryError (received : option error) : WatcherOutcome :=
  match received with
  | Some err =>
      if negb (errors_Is_NormalStorageInterrupt err)
      then WatcherPanics err
      else WatcherReturns
  | None => WatcherReturns
  end.

(** ** Storage and logs: [PrepareStorageAndLogs] *)

(** [strings.Replace(s, old, new, 1)]: the leftmost occurrence of [old] is
    replaced; without an occurrence [s] comes back as it is. *)
Fixpoint Replace1 (s old new : string) : string :=
  if gostrings.HasPrefix s old
  then (new ++ gostrings.drop (String.length old) s)%string
  else match s with
       | EmptyString => EmptyString
       | String c s' => String c (Replace1 s' old new)
       end.

(** The lines of a text, each closed by a line feed. *)
Fixpoint text (lines : list string) : string :=
  match lines with
  | [] => EmptyString
  | l :: rest => (l ++ LF ++ text rest)%string
  end.

(** The raw string [configYamlV0_1]; it opens with a line feed. *)
Definition configYamlV0_1 : string :=
  (LF ++ text
     [ "version: 0.1";
       "log:";
       "  accesslog:";
       "    disabled: $$PLACEHOLDER_ACCESS_LOG_OFF$$";
       "  level: $$PLACEHOLDER_LOG_LEVEL$$";
       "  formatter: text";
       "  fields:";
       "    service: registry";
       "storage:";
       "  cache:";
       "    blobdescriptor: inmemory";
       "  filesystem:";
       "    rootdirectory: $$PLACEHOLDER_ROOT$$";
       "http:";
       "  addr: :$$PLACEHOLDER_PORT$$";
       "  headers:";
       "    X-Content-Type-Options: [nosniff]";
       "      #auth:";
       "      #htpasswd:";
       "      #realm: basic-realm";
       "      #path: /etc/registry";
       "health:";
       "  storagedriver:";
       "    enabled: true";
       "    interval: 10s";
       "    threshold: 3" ])%string.

(** The four substitutions of [PrepareStorageAndLogs], in the order of the
    source: root, port, log level, access log switch. *)
Definition registry_config (root : string) (port : Z) (logLevel : string) : string :=
  let c := Replace1 configYamlV0_1 "$$PLACEHOLDER_ROOT$$" root in
  let c := Replace1 c "$$PLACEHOLDER_PORT$$" (Itoa port) in
  let c := Replace1 c "$$PLACEHOLDER_LOG_LEVEL$$" logLevel in
  if String.eqb logLevel "debug"
  then Replace1 c "$$PLACEHOLDER_ACCESS_LOG_OFF$$" "false"
  else Replace1 c "$$PLACEHOLDER_ACCESS_LOG_OFF$$" "true".

(** What [PrepareStorageAndLogs] reaches beyond [Env]: [os.Stat],
    [configuration.Parse] (the parsed configuration is opaque, the model
    keeps its text), [filepath.Abs] and [registry.NewRegistry]; and the
    registry it constructs, as the process meets it once its goroutine
    runs. *)
Record StorageEnv : Type := mkStorageEnv {
  os_Stat : string -> option error;
  configuration_Parse : string -> option error;
  filepath_Abs : string -> string * option error;
  registry_NewRegistry : string -> option error;
  (** what [reg.ListenAndServe()] returns in the goroutine of
      [startLocalRegistry]; [None] when the registry is still serving when
      the process ends. *)
  registry_ListenAndServe : option (option error);
  (** the schedule: the number of steps the main flow takes, after the
      [go] statement that starts the registry, before the watcher has
      received what [ListenAndServe] returned. *)
  watcher_delay : nat
}.

(** [ExecutorSchema] of the model has no field for the registry and its
    interrupt channel.  What [PrepareStorageAndLogs] assigns to
    [o.LocalStorageService] (kept as the configuration text the registry
    was built from) and whether it started the watcher on the new channel
    are handed back beside the error. *)
Record StorageSetup : Type := mkStorageSetup {
  setup_err : option error;
  LocalStorageService : option string;
  watcher_started : bool
}.

Definition setup_failed (e : error) : StorageSetup :=
  mkStorageSetup (Some e) None false.

(** [func (o *ExecutorSchema) PrepareStorageAndLogs() error].  The warning
    of the registry's own logger goes to the standard error stream (the
    logger adds a time and a level to the line). *)
Definition PrepareStorageAndLogs (E : Env) (S : StorageEnv) : M StorageSetup :=
  (* clean up logs directory *)
  emit (EvRemoveAll logsDir);;
  (* create logs directory *)
  err ← MkdirAll E logsDir;
  match err with
  | Some e => emit (EvLog LvlError " %v " [AErr e]);; mret (setup_failed e)
  | None =>
  o ← get_o;
  match os_Stat S (LocalStorageDisk o) with
  | Some _ =>
      mret (setup_failed
              (errorString "error using the local storage folder for caching"))
  | None =>
  let g := mirror.Global (Opts o) in
  let configYaml :=
    registry_config (LocalStorageDisk o) (mirror.Port g) (mirror.LogLevel g) in
  match configuration_Parse S configYaml with
  | Some e =>
      mret (setup_failed
              (errorString ("error parsing local storage configuration : "
                              ++ Error e ++ LF ++ " " ++ configYaml)))
  | None =>
  (* prepare the logger *)
  emit (EvCreate registryLogFilename);;
  (match os_Create E registryLogFilename with
   | Some _ =>
       set_logfile FileNil;;
       emit (EvStderr
               "Failed to create log file for local storage registry, using default stderr")
   | None => set_logfile FileOpen
   end);;
  (let '(absPath, err) := filepath_Abs S registryLogFilename in
   emit (EvLog LvlInfo "local storage registry will log to %s" [AStr absPath]);;
   match err with
   | Some e => emit (EvLog LvlError (Error e) [])
   | None => mret tt
   end);;
  match registry_NewRegistry S configYaml with
  | Some e => mret (setup_failed e)
  | None => mret (mkStorageSetup None (Some configYaml) true)
  end
  end end end.

(** ** The registry and its watcher beside the main flow *)

(** The first [delay] events of [tr], when the main flow goes on beyond
    them and none of them is a completed send: the watcher receives one
    value, and the main flow sends nothing but the sentinel, on which the
    watcher returns. *)
Fixpoint reach (delay : nat) (tr : list Event) {struct tr} : option (list Event) :=
  match tr with
  | [] => None
  | ev :: rest =>
      match delay with
      | O => Some []
      | S k =>
          match ev with
          | EvSend _ => None
          | _ => option_map (cons ev) (reach k rest)
          end
      end
  end.

(** The trace [tr] of the main flow as the panic of the watcher cuts it:
    [tr] up to its first [go startLocalRegistry(...)] and the [delay]
    events after it.  [None] when the panic does not come: the registry
    was never started, the main flow ended first, or the watcher had
    received the sentinel. *)
Fixpoint strike (delay : nat) (tr : list Event) : option (list Event) :=
  match tr with
  | [] => None
  | EvGoStartLocalRegistry :: rest =>
      option_map (cons EvGoStartLocalRegistry) (reach delay rest)
  | EvSend _ :: _ => None
  | ev :: rest => option_map (cons ev) (strike delay rest)
  end.

(** The main flow [main] from the return of [PrepareStorageAndLogs] on,
    beside the goroutines: the watcher that [PrepareStorageAndLogs]
    started ([go panicOnRegistryError(errchan)]) and the registry that
    [main] starts ([go startLocalRegistry(...)]).  When [ListenAndServe]
    returns, [startLocalRegistry] sends what it returned and the watcher
    decides: its panic ends the process where the main flow then is, and
    no deferred call of the main flow runs.  Of a process ended that way
    the model keeps the world in which [main] was entered.  Whether a send
    of the main flow finds the watcher receiving is said by
    [watcher_receives]. *)
Definition beside_watcher {A} (S : StorageEnv) (st : StorageSetup) (main : M A)
  : M A :=
  fun w =>
    if watcher_started st then
      match registry_ListenAndServe S with
      | Some listenAndServe =>
          match panicOnRegistryError (startLocalRegistry listenAndServe) with
          | WatcherPanics _ =>
              match strike (watcher_delay S) (events (main w)) with
              | Some tr => mkResult Panicked w tr
              | None => main w
              end
          | WatcherReturns => main w
          end
      | None => main w
      end
    else main w.

(** ** The commands *)

(** The last stage of the [Run] closures: the error of the run is logged
    and the process exits with status 1, or the closure returns. *)
Definition exit_status (err : option error) : M Z :=
  match err with
  | Some e => emit (EvLog LvlError "%v " [AErr e]);; mret 1%Z
  | None => mret 0%Z
  end.

(** The [Run] closure of the command built by [NewMirrorCmd], as the
    process runs it: the four stages in sequence, [os.Exit(1)] after the
    first that fails, the last stage beside the watcher.  The value is the
    exit status of the process; the closure is entered with at least one
    argument ([cobra.MinimumNArgs(1)]). *)
Definition mirrorCmd_Run (E : Env) (S : StorageEnv) (args : list string) : M Z :=
  o ← get_o;
  match Validate o args with
  | Panicked => panic
  | Blocked => block
  | Returned (Some e) => emit (EvLog LvlError "%v " [AErr e]);; mret 1%Z
  | Returned None =>
  err ← Complete E args;
  match err with
  | Some e => emit (EvLog LvlError " %v " [AErr e]);; mret 1%Z
  | None =>
  (* prepare internal storage *)
  st ← PrepareStorageAndLogs E S;
  match setup_err st with
  | Some e => emit (EvLog LvlError " %v " [AErr e]);; mret 1%Z
  | None =>
  beside_watcher S st (err ← Run E; exit_status err)
  end end end.

(** The [Run] closure of the command built by [NewPrepareCommand], as the
    process runs it. *)
Definition prepareCmd_Run (E : Env) (S : StorageEnv) (args : list string) : M Z :=
  o ← get_o;
  match ValidatePrepare o args with
  | Some e => emit (EvLog LvlError "%v " [AErr e]);; mret 1%Z
  | None =>
  err ← CompletePrepare E args;
  match err with
  | Some e => emit (EvLog LvlError "%v " [AErr e]);; mret 1%Z
  | None =>
  (* prepare internal storage *)
  st ← PrepareStorageAndLogs E S;
  match setup_err st with
  | Some e => emit (EvLog LvlError " %v " [AErr e]);; mret 1%Z
  | None =>
  beside_watcher S st (err ← RunPrepare E; exit_status err)
  end end end.

(** * Vocabulary of the properties *)

(** ** Sample inputs *)

Definition sample_global (from : string) : mirror.GlobalOptions :=
  mirror.mkGlobal "isc.yaml" "info" "working-dir" from 5000.

Definition sample_exec (from : string) : ExecutorSchema :=
  mkExec "" (mirror.mkOpts (sample_global from) mirror.ModeUnset "" "" "")
    "" "" false false.

Definition sample_world (from : string) : World :=
  mkWorld (sample_exec from) FileOpen.

Definition sample_image (name : string) : v1alpha3.CopyImageSchema :=
  v1alpha3.mkImage ("docker://quay.io/" ++ name) ("docker://localhost:5000/" ++ name) "".

Definition r1 := sample_image "r1".
Definition r2 := sample_image "r2".
Definition o1 := sample_image "o1".
Definition a1 := sample_image "a1".
Definition a2 := sample_image "a2".

(** An environment in which nothing fails: the collectors return
    [collected], the cache holds the destinations [cached] says it holds. *)
Definition sample_env
  (collected : Collector -> list v1alpha3.CopyImageSchema * option error)
  (cached : string -> bool) : Env :=
  {| os_MkdirAll := fun _ => None;
     os_Getenv := fun _ => "";
     os_UserHomeDir := ("/home/user", None);
     os_Create := fun _ => None;
     file_Write := fun _ _ => None;
     filepath_Join := fun dir name => (dir ++ "/" ++ name)%string;
     config_ReadConfig := fun _ => ("kind: ImageSetConfiguration", None);
     archive_NewMirrorArchive := None;
     archive_NewArchiveExtractor := None;
     collect := collected;
     Batch_Worker := fun _ _ => None;
     MirrorArchiver_BuildArchive := fun _ => ("mirror_000001.tar", None);
     MirrorUnArchiver_Unarchive := None;
     ClusterResources_IDMSGenerator := fun _ _ => None;
     Mirror_Check := fun dest _ => (cached dest, None);
     watcher_receives := true |}.

Definition collected_all (c : Collector)
  : list v1alpha3.CopyImageSchema * option error :=
  match c with
  | Release => ([r1; r2], None)
  | Operator => ([o1], None)
  | AdditionalImages => ([a1; a2], None)
  end.

(** The operator collector fails after the release collector returned
    one image. *)
Definition collected_operator_fails (c : Collector)
  : list v1alpha3.CopyImageSchema * option error :=
  match c with
  | Release => ([r1], None)
  | Operator => ([], Some (errorString "unable to read the operator catalog"))
  | AdditionalImages => ([a1], None)
  end.

(** The release collector fails. *)
Definition collected_release_fails (c : Collector)
  : list v1alpha3.CopyImageSchema * option error :=
  match c with
  | Release => ([], Some (errorString "unable to reach the update service"))
  | Operator => ([o1], None)
  | AdditionalImages => ([a1], None)
  end.

Definition all_cached (dest : string) : bool := true.

(** A world in which [Complete] resolved mirror-to-disk. *)
Definition mirror_to_disk_world
  (collected : Collector -> list v1alpha3.CopyImageSchema * option error) : World :=
  world (Complete (sample_env collected all_cached) ["file://out"] (sample_world "")).

(** A world in which [Complete] resolved disk-to-mirror. *)
Definition disk_to_mirror_world
  (collected : Collector -> list v1alpha3.CopyImageSchema * option error) : World :=
  world (Complete (sample_env collected all_cached)
           ["docker://registry.example:5000/mirror"] (sample_world "file:///mnt/disk")).

(** Three destinations, of which the cache holds two. *)
Definition collected_three (c : Collector)
  : list v1alpha3.CopyImageSchema * option error :=
  match c with
  | Release => ([r1], None)
  | Operator => ([o1], None)
  | AdditionalImages => ([a1], None)
  end.

Definition cached_but_a1 (dest : string) : bool :=
  negb (String.eqb dest (v1alpha3.Destination a1)).

(** A world in which [CompletePrepare] has run. *)
Definition prepare_world
  (collected : Collector -> list v1alpha3.CopyImageSchema * option error) : World :=
  world (CompletePrepare (sample_env collected all_cached) []
           (sample_world "file:///mnt/disk")).

(** ** Resolution of the mode *)

Definition Complete_exec (E : Env) (args : list string) (w : World) : ExecutorSchema :=
  exec (world (Complete E args w)).

Definition CompletePrepare_exec (E : Env) (args : list string) (w : World)
  : ExecutorSchema :=
  exec (world (CompletePrepare E args w)).

(** The root directory [Complete] computes. *)
Definition rootDir_of (dest0 from : string) : string :=
  if gostrings.Contains dest0 fileProtocol
  then gostrings.TrimPrefix dest0 fileProtocol
  else if gostrings.Contains dest0 dockerProtocol
       then gostrings.TrimPrefix from fileProtocol
       else "".

(** [Complete] gets as far as the mode logic when the logs directory can
    be created and the configuration can be read. *)
Definition reaches_mode_logic (E : Env) (w : World) : Prop :=
  os_MkdirAll E logsDir = None
  /\ snd (config_ReadConfig E (mirror.ConfigPath (mirror.Global (Opts (exec w))))) = None.

(** ** Traces *)

Definition count_events (P : Event -> bool) (tr : list Event) : nat :=
  length (List.filter P tr).

(** Every event of [tr] that satisfies [Q] has an event that satisfies [P]
    strictly before it. *)
Definition precedes (P Q : Event -> bool) (tr : list Event) : Prop :=
  forall pre ev post,
    tr = pre ++ ev :: post -> Q ev = true -> exists ev', In ev' pre /\ P ev' = true.

Fixpoint precedesb (P Q : Event -> bool) (seen : bool) (tr : list Event) : bool :=
  match tr with
  | [] => true
  | ev :: tr' => (negb (Q ev) || seen) && precedesb P Q (seen || P ev) tr'
  end.

(** One run of [cleanUp] closes the registry log file once, and nothing
    else closes that file. *)
Definition is_log_file_close (ev : Event) : bool :=
  match ev with
  | EvClose path => String.eqb path registryLogFilename
  | _ => false
  end.

Definition cleanUp_runs (tr : list Event) : nat := count_events is_log_file_close tr.

Definition is_sentinel_send (ev : Event) : bool :=
  match ev with
  | EvSend sig => errors_Is_NormalStorageInterrupt sig
  | _ => false
  end.

Definition is_BuildArchive (ev : Event) : bool :=
  match ev with EvBuildArchive _ => true | _ => false end.

(** The logs of the clock readings. *)
Definition is_time_log (ev : Event) : bool :=
  match ev with
  | EvLog _ _ args =>
      existsb (fun a => match a with ATime _ => true | _ => false end) args
  | _ => false
  end.

(** The log of the reading taken when the transfer is over. *)
Definition is_mirror_time_log (ev : Event) : bool :=
  match ev with
  | EvLog _ _ [ATime mirrorFinish] => true
  | _ => false
  end.

(** A call of the batch worker that returned nil. *)
Definition is_successful_transfer (E : Env) (ev : Event) : bool :=
  match ev with
  | EvBatchWorker imgs opts => is_nil (Batch_Worker E imgs opts)
  | _ => false
  end.

Definition is_stderr (ev : Event) : bool :=
  match ev with EvStderr _ => true | _ => false end.

Definition is_write (ev : Event) : bool :=
  match ev with EvWrite _ _ => true | _ => false end.

(** ** The collection aggregator *)

Definition Collector_rank (c : Collector) : nat :=
  match c with Release => 0 | Operator => 1 | AdditionalImages => 2 end.

(** The first collector to fail, in calling order, and its error. *)
Definition first_failure (E : Env) : option (Collector * error) :=
  match collect E Release with
  | (_, Some e) => Some (Release, e)
  | (_, None) =>
      match collect E Operator with
      | (_, Some e) => Some (Operator, e)
      | (_, None) =>
          match collect E AdditionalImages with
          | (_, Some e) => Some (AdditionalImages, e)
          | (_, None) => None
          end
      end
  end.

(** What the accumulator holds when [CollectAll] stops. *)
Definition partial_result (E : Env) : list v1alpha3.CopyImageSchema :=
  match collect E Release with
  | (_, Some _) => []
  | (rel, None) =>
      match collect E Operator with
      | (_, Some _) => rel
      | (ops, None) =>
          match collect E AdditionalImages with
          | (_, Some _) => rel ++ ops
          | (add, None) => rel ++ ops ++ add
          end
      end
  end.

(** Does the run get to the collectors, and does one of them fail? *)
Definition collection_fails (E : Env) (w : World) : bool :=
  (mirror.IsMirrorToDisk (Opts (exec w))
   || (MirrorUnArchiver (exec w) && is_nil (MirrorUnArchiver_Unarchive E)))
  && match first_failure E with Some _ => true | None => false end.

(** ** The registry watcher *)

Definition is_sentinel (received : option error) : bool :=
  match received with
  | Some e => errors_Is_NormalStorageInterrupt e
  | None => false
  end.

(** ** The prepare path *)

Section Prepare.

Variable E : Env.
Variable opts : mirror.CopyOptions.

(** The check of [img] failed or found nothing. *)
Definition absent (img : v1alpha3.CopyImageSchema) : bool :=
  nonnil (snd (Mirror_Check E (v1alpha3.Destination img) opts))
  || negb (fst (Mirror_Check E (v1alpha3.Destination img) opts)).

(** One line per image, in the order of the list. *)
Fixpoint report_lines (imgs : list v1alpha3.CopyImageSchema) : string :=
  match imgs with
  | [] => ""
  | img :: rest => (v1alpha3.Destination img ++ LF) ++ report_lines rest
  end.

(** The presence map after the loop. *)
Fixpoint presence (imgs : list v1alpha3.CopyImageSchema) (m : gmap string bool)
  : gmap string bool :=
  match imgs with
  | [] => m
  | img :: rest =>
      presence rest
        (<[v1alpha3.Destination img :=
             fst (Mirror_Check E (v1alpha3.Destination img) opts)]> m)
  end.

(** The events of the loop. *)
Fixpoint check_events (imgs : list v1alpha3.CopyImageSchema) : list Event :=
  match imgs with
  | [] => []
  | img :: rest =>
      EvMirrorCheck (v1alpha3.Destination img) opts
      :: match snd (Mirror_Check E (v1alpha3.Destination img) opts) with
         | Some e =>
             [EvLog LvlWarn "unable to check existence of %s in local cache: %v"
                [AStr (v1alpha3.Destination img); AErr e]]
         | None => []
         end
      ++ check_events rest
  end.

End Prepare.

Definition cachedImagesFilePath (E : Env) : string :=
  filepath_Join E logsDir "cached-images.txt".

(** The options the checks are made under: [CollectAll] has left its last
    tag in them. *)
Definition collection_opts (w : World) : mirror.CopyOptions :=
  set_ImageType "operator" (Opts (exec w)).

(** The log line that names [d] as missing. *)
Definition missing_log (d : string) : Event := EvLog LvlError "%s" [AStr d].

Definition missing_events (entries : list (string * bool)) : list Event :=
  map (fun en => missing_log (fst en)) (List.filter (fun en => negb (snd en)) entries).

(** The events of the three collectors when none fails. *)
Definition collect_events (rel ops add : list v1alpha3.CopyImageSchema) : list Event :=
  [EvCollect Release;
   EvLog LvlInfo "total release images to copy %d " [AInt (len rel)];
   EvCollect Operator;
   EvLog LvlInfo "total operator images to copy %d " [AInt (len ops)];
   EvCollect AdditionalImages;
   EvLog LvlInfo "total additional images to copy %d " [AInt (len add)]].

(** What [RunPrepare] returns once the checks are made. *)
Definition prepare_verdict (E : Env) (w : World)
  (all : list v1alpha3.CopyImageSchema) : option error :=
  match file_Write E (cachedImagesFilePath E) (report_lines all) with
  | Some e => Some e
  | None =>
      if existsb (absent E (collection_opts w)) all
      then Some err_not_in_cache
      else None
  end.

(** What it logs after the write. *)
Definition verdict_events (E : Env) (w : World)
  (all : list v1alpha3.CopyImageSchema) : list Event :=
  match file_Write E (cachedImagesFilePath E) (report_lines all) with
  | Some e => []
  | None =>
      if existsb (absent E (collection_opts w)) all
      then EvLog LvlError "missing images: " []
           :: missing_events (map_to_list (presence E (collection_opts w) all ∅))
      else [EvLog LvlInfo
              "all %d images required for mirroring are available in local cache. You may proceed with mirroring from disk to disconnected registry"
              [AInt (Z.of_nat (size (presence E (collection_opts w) all ∅)))];
            EvLog LvlInfo "full list in : %s" [AStr (cachedImagesFilePath E)]]
  end.

(** ** Vocabulary of the further properties *)

(** The five directories of the working directory layout, in the order
    [setupWorkingDir] creates them. *)
Definition working_dirs (wd : string) : list string :=
  [ wd;
    (wd ++ "/" ++ signaturesDir)%string;
    (wd ++ "/" ++ releaseImageDir)%string;
    (wd ++ "/" ++ releaseImageExtractDir)%string;
    (wd ++ "/" ++ operatorImageExtractDir)%string ].

(** The directories a fail-fast creation of [dirs] attempts: up to and
    including the first that cannot be created. *)
Fixpoint attempted (E : Env) (dirs : list string) : list string :=
  match dirs with
  | [] => []
  | d :: rest => d :: (if is_nil (os_MkdirAll E d) then attempted E rest else [])
  end.

(** The error of the first directory of [dirs] that cannot be created. *)
Fixpoint first_mkdir_error (E : Env) (dirs : list string) : option error :=
  match dirs with
  | [] => None
  | d :: rest =>
      match os_MkdirAll E d with
      | Some e => Some e
      | None => first_mkdir_error E rest
      end
  end.

(** The paths given to [os.MkdirAll], in order. *)
Fixpoint MkdirAll_paths (tr : list Event) : list string :=
  match tr with
  | [] => []
  | EvMkdirAll p :: tr' => p :: MkdirAll_paths tr'
  | _ :: tr' => MkdirAll_paths tr'
  end.

Definition is_ReadConfig (ev : Event) : bool :=
  match ev with EvReadConfig _ => true | _ => false end.

Definition is_MkdirAll (ev : Event) : bool :=
  match ev with EvMkdirAll _ => true | _ => false end.

Definition is_collect (ev : Event) : bool :=
  match ev with EvCollect _ => true | _ => false end.

Definition is_registry_start (ev : Event) : bool :=
  match ev with EvGoStartLocalRegistry => true | _ => false end.

Definition is_Unarchive (ev : Event) : bool :=
  match ev with EvUnarchive => true | _ => false end.

Definition is_UnArchiverClose (ev : Event) : bool :=
  match ev with EvUnArchiverClose => true | _ => false end.

Definition is_ArchiverClose (ev : Event) : bool :=
  match ev with EvArchiverClose => true | _ => false end.

Definition is_BatchWorker (ev : Event) : bool :=
  match ev with EvBatchWorker _ _ => true | _ => false end.

Definition is_IDMSGenerator (ev : Event) : bool :=
  match ev with EvIDMSGenerator _ _ => true | _ => false end.

Definition is_send (ev : Event) : bool :=
  match ev with EvSend _ => true | _ => false end.

Definition is_RemoveAll (ev : Event) : bool :=
  match ev with EvRemoveAll _ => true | _ => false end.

Definition is_MirrorCheck (ev : Event) : bool :=
  match ev with EvMirrorCheck _ _ => true | _ => false end.

(** A call of the cluster resource generator that returned nil. *)
Definition is_successful_IDMS (E : Env) (ev : Event) : bool :=
  match ev with
  | EvIDMSGenerator imgs opts => is_nil (ClusterResources_IDMSGenerator E imgs opts)
  | _ => false
  end.

(** The events that move or package images. *)
Definition is_transfer (ev : Event) : bool :=
  is_BatchWorker ev || is_send ev || is_BuildArchive ev || is_ArchiverClose ev
  || is_Unarchive ev || is_UnArchiverClose ev || is_IDMSGenerator ev.

(** The options a collaborator is called with. *)
Definition call_opts (ev : Event) : option mirror.CopyOptions :=
  match ev with
  | EvBatchWorker _ opts => Some opts
  | EvIDMSGenerator _ opts => Some opts
  | EvMirrorCheck _ opts => Some opts
  | _ => None
  end.

(** The line [cleanUp] writes when the close of a nil log file fails. *)
Definition close_error_nil : Event :=
  EvStderr ("error closing log file " ++ registryLogFilename ++ ": "
              ++ "invalid argument" ++ LF).

(** The destination does not name a protocol. *)
Definition unrecognized (dest0 : string) : Prop :=
  gostrings.Contains dest0 fileProtocol = false
  /\ gostrings.Contains dest0 dockerProtocol = false.

(** An environment whose system calls succeed. *)
Definition system_ok (E : Env) : Prop :=
  (forall p, os_MkdirAll E p = None) /\ snd (os_UserHomeDir E) = None.

(** No byte of [s] is a dollar sign. *)
Fixpoint no_dollar (s : string) : bool :=
  match s with
  | EmptyString => true
  | String c s' => negb (Ascii.eqb c "$") && no_dollar s'
  end.

(** The registry configuration with [disabled], [level], [root] and
    [addr] in the four places of the template. *)
Definition registry_config_lines (disabled level root addr : string) : string :=
  (LF ++ text
     [ "version: 0.1";
       "log:";
       "  accesslog:";
       "    disabled: " ++ disabled;
       "  level: " ++ level;
       "  formatter: text";
       "  fields:";
       "    service: registry";
       "storage:";
       "  cache:";
       "    blobdescriptor: inmemory";
       "  filesystem:";
       "    rootdirectory: " ++ root;
       "http:";
       "  addr: :" ++ addr;
       "  headers:";
       "    X-Content-Type-Options: [nosniff]";
       "      #auth:";
       "      #htpasswd:";
       "      #realm: basic-realm";
       "      #path: /etc/registry";
       "health:";
       "  storagedriver:";
       "    enabled: true";
       "    interval: 10s";
       "    threshold: 3" ])%string.

(** The access log is on for the log level [debug] only. *)
Definition accesslog_disabled (logLevel : string) : string :=
  if String.eqb logLevel "debug" then "false" else "true".

(** A storage environment in which nothing fails. *)
Definition sample_storage_env : StorageEnv :=
  {| os_Stat := fun _ => None;
     configuration_Parse := fun _ => None;
     filepath_Abs := fun p => (("/work/" ++ p)%string, None);
     registry_NewRegistry := fun _ => None;
     registry_ListenAndServe := None;
     watcher_delay := 0 |}.

(** The port of the registry is taken: [ListenAndServe] returns an error,
    which the watcher receives when the main flow has called the first
    collector. *)
Definition storage_env_port_in_use : StorageEnv :=
  {| os_Stat := fun _ => None;
     configuration_Parse := fun _ => None;
     filepath_Abs := fun p => (("/work/" ++ p)%string, None);
     registry_NewRegistry := fun _ => None;
     registry_ListenAndServe :=
       Some (Some (errorString "listen tcp :5000: bind: address already in use"));
     watcher_delay := 1 |}.

(** The list [CollectAll] hands on when no collector fails. *)
Definition collected_images (E : Env) : list v1alpha3.CopyImageSchema :=
  (fst (collect E Release) ++ fst (collect E Operator))
  ++ fst (collect E AdditionalImages).

(** The options of a run at the time of the transfer. *)
Definition transfer_opts (p : mirror.CopyOptions) : mirror.CopyOptions :=
  set_ImageType "operator" (set_MultiArch "all" p).

Definition is_log (ev : Event) : bool :=
  match ev with EvLog _ _ _ => true | _ => false end.

(** An environment in which the configuration cannot be read. *)
Definition env_without_config : Env :=
  {| os_MkdirAll := fun _ => None;
     os_Getenv := fun _ => "";
     os_UserHomeDir := ("/home/user", None);
     os_Create := fun _ => None;
     file_Write := fun _ _ => None;
     filepath_Join := fun dir name => (dir ++ "/" ++ name)%string;
     config_ReadConfig :=
       fun _ => ("", Some (errorString "open isc.yaml: no such file or directory"));
     archive_NewMirrorArchive := None;
     archive_NewArchiveExtractor := None;
     collect := collected_all;
     Batch_Worker := fun _ _ => None;
     MirrorArchiver_BuildArchive := fun _ => ("mirror_000001.tar", None);
     MirrorUnArchiver_Unarchive := None;
     ClusterResources_IDMSGenerator := fun _ _ => None;
     Mirror_Check := fun _ _ => (true, None);
     watcher_receives := true |}.

(** An environment in which no file can be created. *)
Definition env_without_log_file : Env :=
  {| os_MkdirAll := fun _ => None;
     os_Getenv := fun _ => "";
     os_UserHomeDir := ("/home/user", None);
     os_Create := fun _ => Some (errorString "open logs/registry.log: permission denied");
     file_Write := fun _ _ => None;
     filepath_Join := fun dir name => (dir ++ "/" ++ name)%string;
     config_ReadConfig := fun _ => ("kind: ImageSetConfiguration", None);
     archive_NewMirrorArchive := None;
     archive_NewArchiveExtractor := None;
     collect := collected_all;
     Batch_Worker := fun _ _ => None;
     MirrorArchiver_BuildArchive := fun _ => ("mirror_000001.tar", None);
     MirrorUnArchiver_Unarchive := None;
     ClusterResources_IDMSGenerator := fun _ _ => None;
     Mirror_Check := fun _ _ => (true, None);
     watcher_receives := true |}.

(** A storage environment in which the cache directory does not exist. *)
Definition storage_env_without_cache : StorageEnv :=
  {| os_Stat := fun _ => Some (errorString "stat : no such file or directory");
     configuration_Parse := fun _ => None;
     filepath_Abs := fun p => (("/work/" ++ p)%string, None);
     registry_NewRegistry := fun _ => None;
     registry_ListenAndServe := None;
     watcher_delay := 0 |}.

(** The template up to the root, and from the root on. *)
Definition template_head : string :=
  (LF ++ text
     [ "version: 0.1";
       "log:";
       "  accesslog:";
       "    disabled: $$PLACEHOLDER_ACCESS_LOG_OFF$$";
       "  level: $$PLACEHOLDER_LOG_LEVEL$$";
       "  formatter: text";
       "  fields:";
       "    service: registry";
       "storage:";
       "  cache:";
       "    blobdescriptor: inmemory";
       "  filesystem:" ] ++ "    rootdirectory: ")%string.

Definition template_tail (addr : string) : string :=
  (LF ++ "http:" ++ LF ++ "  addr: :" ++ addr ++ LF
   ++ text
     [ "  headers:";
       "    X-Content-Type-Options: [nosniff]";
       "      #auth:";
       "      #htpasswd:";
       "      #realm: basic-realm";
       "      #path: /etc/registry";
       "health:";
       "  storagedriver:";
       "    enabled: true";
       "    interval: 10s";
       "    threshold: 3" ])%string.

(** The events of a run proper: what the setup stages never do. *)
Definition is_work (ev : Event) : bool :=
  is_transfer ev || is_collect ev || is_registry_start ev || is_MirrorCheck ev.

(** * Properties *)

(** ** Symbolic execution *)

(** The routines are straight-line code over the environment: a proof
    unfolds them, evaluates, and splits on each outcome the environment
    decides. *)
Create HintDb go discriminated.
#[local] Hint Unfold Complete CompletePrepare setupLogsLevelAndDir setupWorkingDir
  setupLocalStorageDir mkdir_or_fail MkdirAll check_mode cleanUp CollectAll
  RunMirrorToDisk RunDiskToMirror Run send log_starting_local_storage log_times
  mergeImages mbind mret M_bind M_ret emit block panic get_o modify_o get_logfile
  set_logfile with_defer : go.

Ltac exec_go := repeat autounfold with go; cbn.

(** Split on the innermost scrutinee that blocks evaluation. *)
Ltac break_match :=
  match goal with
  | |- context [match ?x with _ => _ end] =>
      lazymatch x with
      | context [match _ with _ => _ end] => fail
      | negb ?y => destruct y eqn:?
      | _ => destruct x eqn:?
      end
  end.

(** ** String facts *)

Lemma HasPrefix_Contains (s p : string) :
  gostrings.HasPrefix s p = true -> gostrings.Contains s p = true.
Proof.
  intros H. destruct s; cbn [gostrings.Contains]; rewrite H; reflexivity.
Qed.

Lemma Contains_tail (c : ascii) (s p : string) :
  gostrings.Contains s p = true -> gostrings.Contains (String c s) p = true.
Proof.
  intros H. cbn [gostrings.Contains]. rewrite H. apply orb_true_r.
Qed.

Lemma len_pos_nonempty (s : string) :
  (0 <? String.length s)%nat = negb (String.eqb s "").
Proof. destruct s; reflexivity. Qed.

Lemma len_zero_empty (s : string) :
  (String.length s =? 0)%nat = String.eqb s "".
Proof. destruct s; reflexivity. Qed.

Lemma SplitFrom_not_nil (sep : string) (s : string) :
  forall skip cur, gostrings.SplitFrom sep skip cur s <> [].
Proof.
  induction s as [|c s IH]; intros skip cur; cbn [gostrings.SplitFrom].
  - discriminate.
  - destruct skip; [destruct (gostrings.HasPrefix _ _)|]; try apply IH.
    discriminate.
Qed.

(** A string that contains a non-empty separator is split in at least two
    pieces: element 1 of the result exists. *)
Lemma SplitFrom_two (sep : string) (s : string) :
  sep <> "" ->
  forall cur, gostrings.Contains s sep = true ->
  exists a b l, gostrings.SplitFrom sep 0 cur s = a :: b :: l.
Proof.
  intros Hsep. induction s as [|c s IH]; intros cur H.
  - destruct sep; [congruence | discriminate H].
  - cbn [gostrings.SplitFrom]. cbn [gostrings.Contains] in H.
    destruct (gostrings.HasPrefix (String c s) sep) eqn:Hp.
    + destruct (gostrings.SplitFrom sep (String.length sep - 1) "" s) as [|b l] eqn:Hs.
      * exfalso. exact (SplitFrom_not_nil _ _ _ _ Hs).
      * eauto.
    + apply IH. exact H.
Qed.

Lemma Contains_file_sep (s : string) :
  gostrings.Contains s fileProtocol = true -> gostrings.Contains s "://" = true.
Proof.
  induction s as [|c s IH]; intros H.
  - discriminate H.
  - cbn [gostrings.Contains] in H. apply orb_true_iff in H as [H|H].
    + clear IH. unfold fileProtocol in H.
      destruct s as [|c2 [|c3 [|c4 s]]]; cbn in H;
        repeat match type of H with
               | (if ?b then _ else _) = true => destruct b; [|discriminate H]
               end; try discriminate H.
      do 4 apply Contains_tail. apply HasPrefix_Contains. exact H.
    + apply Contains_tail. apply IH. exact H.
Qed.

Lemma append_assoc (s t u : string) : ((s ++ t) ++ u = s ++ (t ++ u))%string.
Proof.
  induction s as [|c s IH]; [reflexivity|].
  change (String c ((s ++ t) ++ u) = String c (s ++ (t ++ u)))%string.
  now rewrite IH.
Qed.

Lemma append_empty_r (s : string) : (s ++ "" = s)%string.
Proof.
  induction s as [|c s IH]; [reflexivity|].
  change (String c (s ++ "") = String c s)%string. now rewrite IH.
Qed.

(** From here on the string functions are kept folded during evaluation. *)
#[local] Arguments Itoa : simpl never.
#[local] Arguments gostrings.Contains : simpl never.
#[local] Arguments gostrings.TrimPrefix : simpl never.
#[local] Arguments gostrings.Split : simpl never.

(** ** Validate *)

(** What [Validate] accepts, in the terms of the code: every protocol test
    is a containment test. *)
Lemma Validate_nil_iff (o : ExecutorSchema) (dest0 : string) (rest : list string) :
  Validate o (dest0 :: rest) = Returned None <->
    mirror.ConfigPath (mirror.Global (Opts o)) <> ""
    /\ (gostrings.Contains dest0 dockerProtocol = true ->
        mirror.From (mirror.Global (Opts o)) <> ""
        /\ gostrings.Contains (mirror.From (mirror.Global (Opts o))) fileProtocol = true)
    /\ (gostrings.Contains dest0 fileProtocol = true ->
        mirror.From (mirror.Global (Opts o)) = "")
    /\ (gostrings.Contains dest0 fileProtocol = true
        \/ gostrings.Contains dest0 dockerProtocol = true).
Proof.
  unfold Validate, Validate_dest.
  rewrite len_zero_empty, len_pos_nonempty.
  destruct (String.eqb_spec (mirror.ConfigPath (mirror.Global (Opts o))) "") as [Hc|Hc];
    [ split; [discriminate | intros [H _]; contradiction] |].
  destruct (String.eqb_spec (mirror.From (mirror.Global (Opts o))) "") as [Hf|Hf];
    destruct (gostrings.Contains dest0 dockerProtocol);
    destruct (gostrings.Contains dest0 fileProtocol);
    destruct (gostrings.Contains (mirror.From (mirror.Global (Opts o))) fileProtocol);
    cbn; split; intros H; try discriminate H;
    try (repeat split; intros; try (left; reflexivity); try (right; reflexivity);
         solve [assumption | discriminate | congruence]);
    destruct H as (_ & Hd & Hfile & Hp);
    try (destruct Hd as [Hd1 Hd2]; [reflexivity|]);
    try specialize (Hfile eq_refl);
    solve [congruence | destruct Hp; discriminate].
Qed.

(** The five rules of [Validate] carry five different messages. *)
Lemma Validate_errors_distinct :
  NoDup (map Error [err_config_mandatory; err_docker_needs_from; err_file_no_from;
                    err_from_prefix; err_dest_protocol]).
Proof. apply (bool_decide_unpack _). vm_compute. reflexivity. Qed.

(** [Validate] returns an error of one of the five rules or nil. *)
Lemma Validate_returns (o : ExecutorSchema) (dest0 : string) (rest : list string) :
  exists r, Validate o (dest0 :: rest) = Returned r
            /\ In r [None; Some err_config_mandatory; Some err_docker_needs_from;
                     Some err_file_no_from; Some err_from_prefix; Some err_dest_protocol].
Proof.
  unfold Validate, Validate_dest.
  repeat match goal with
         | |- context [if ?b then _ else _] => destruct b
         end; eexists; (split; [reflexivity|]); cbn; tauto.
Qed.

(** C1 (defect of the code): [Validate] tests [--from] and the destination
    with [strings.Contains] where its own messages speak of a prefix.  A
    [--from] value that holds [file://] in the middle passes the rule "when
    --from is used, it must have file:// prefix", and so does a destination
    that holds a protocol in the middle. *)
Theorem Validate_accepts_protocol_without_prefix :
  Validate (sample_exec "backup-file://mirror")
    ["docker://registry.example:5000/mirror"] = Returned None
  /\ gostrings.HasPrefix "backup-file://mirror" fileProtocol = false
  /\ Validate (sample_exec "") ["archive+file://out"] = Returned None
  /\ gostrings.HasPrefix "archive+file://out" fileProtocol = false
  /\ gostrings.HasPrefix "archive+file://out" dockerProtocol = false.
Proof. repeat split; reflexivity. Qed.

(** ** Complete *)

Lemma Complete_options (E : Env) (w : World) (dest0 : string) (rest : list string) :
  reaches_mode_logic E w ->
  mirror.Mode (Opts (Complete_exec E (dest0 :: rest) w))
  = (if gostrings.Contains dest0 fileProtocol then mirror.MirrorToDisk
     else if gostrings.Contains dest0 dockerProtocol then mirror.DiskToMirror
          else mirror.Mode (Opts (exec w)))
  /\ mirror.WorkingDir (mirror.Global (Opts (Complete_exec E (dest0 :: rest) w)))
     = filepath_Join E
         (rootDir_of dest0 (mirror.From (mirror.Global (Opts (exec w))))) workingDir
  /\ mirror.Destination (Opts (Complete_exec E (dest0 :: rest) w)) = dest0.
Proof.
  intros [H1 H2]. unfold Complete_exec, rootDir_of.
  exec_go. rewrite H1. cbn.
  destruct (config_ReadConfig E _) as [cfg e]. cbn in H2. subst e. cbn.
  repeat (break_match; cbn; try (repeat split; reflexivity)).
Qed.

(** [Complete] never resolves to [Prepare], wherever it stops. *)
Lemma Complete_never_sets_Prepare (E : Env) (w : World) (args : list string) :
  mirror.Mode (Opts (exec w)) <> mirror.Prepare ->
  mirror.Mode (Opts (Complete_exec E args w)) <> mirror.Prepare.
Proof.
  intros H. unfold Complete_exec. exec_go.
  repeat (break_match; cbn; try assumption; try discriminate).
Qed.

(** [CompletePrepare], called after [ValidatePrepare] accepted, does not
    panic on [strings.Split(...)[1]] and sets the mode to [Prepare]. *)
Lemma CompletePrepare_sets_Prepare (E : Env) (w : World) (args : list string) :
  ValidatePrepare (exec w) args = None ->
  reaches_mode_logic E w ->
  mirror.Mode (Opts (CompletePrepare_exec E args w)) = mirror.Prepare
  /\ outcome (CompletePrepare E args w) <> Panicked.
Proof.
  intros Hv [H1 H2]. unfold ValidatePrepare in Hv.
  destruct (String.length _ =? 0)%nat; [discriminate|].
  destruct (String.eqb _ ""); [discriminate|].
  destruct (gostrings.Contains _ fileProtocol) eqn:Hc; [|discriminate]. clear Hv.
  apply Contains_file_sep in Hc.
  destruct (SplitFrom_two "://" _ ltac:(discriminate) "" Hc) as (a & b & l & Hs).
  fold (gostrings.Split (mirror.From (mirror.Global (Opts (exec w)))) "://") in Hs.
  unfold CompletePrepare_exec.
  exec_go. rewrite H1. cbn.
  destruct (config_ReadConfig E _) as [cfg e]. cbn in H2. subst e. cbn.
  rewrite Hs. cbn.
  repeat (break_match; cbn; try (split; [reflexivity|discriminate])).
Qed.

(** C2: for an argument list that [Validate] accepted, [Complete] (once
    past reading the configuration) resolves the mode from the destination
    alone: [MirrorToDisk] for a [file://] destination, with the working
    directory under the destination path, [DiskToMirror] for a [docker://]
    destination, with the working directory under the [--from] path.
    [Complete] never yields [Prepare]; [CompletePrepare] does. *)
Theorem Complete_resolves_mode
  (E : Env) (w : World) (dest0 : string) (rest : list string) :
  Validate (exec w) (dest0 :: rest) = Returned None ->
  reaches_mode_logic E w ->
  mirror.Mode (Opts (Complete_exec E (dest0 :: rest) w))
  = (if gostrings.Contains dest0 fileProtocol
     then mirror.MirrorToDisk else mirror.DiskToMirror)
  /\ (gostrings.Contains dest0 fileProtocol = true ->
      mirror.Mode (Opts (Complete_exec E (dest0 :: rest) w)) = mirror.MirrorToDisk
      /\ mirror.WorkingDir (mirror.Global (Opts (Complete_exec E (dest0 :: rest) w)))
         = filepath_Join E (gostrings.TrimPrefix dest0 fileProtocol) workingDir)
  /\ (gostrings.Contains dest0 dockerProtocol = true ->
      mirror.Mode (Opts (Complete_exec E (dest0 :: rest) w)) = mirror.DiskToMirror
      /\ mirror.WorkingDir (mirror.Global (Opts (Complete_exec E (dest0 :: rest) w)))
         = filepath_Join E
             (gostrings.TrimPrefix (mirror.From (mirror.Global (Opts (exec w))))
                fileProtocol) workingDir)
  /\ (forall E' w' args,
        mirror.Mode (Opts (exec w')) <> mirror.Prepare ->
        mirror.Mode (Opts (Complete_exec E' args w')) <> mirror.Prepare)
  /\ (forall E' w' args,
        ValidatePrepare (exec w') args = None ->
        reaches_mode_logic E' w' ->
        mirror.Mode (Opts (CompletePrepare_exec E' args w')) = mirror.Prepare).
Proof.
  intros Hv Hr.
  apply Validate_nil_iff in Hv as (_ & Hd & Hf & Hp).
  destruct (Complete_options E w dest0 rest Hr) as (Hm & Hw & _).
  rewrite Hm, Hw. unfold rootDir_of.
  destruct (gostrings.Contains dest0 fileProtocol) eqn:HF;
    destruct (gostrings.Contains dest0 dockerProtocol) eqn:HD.
  - (* both protocols: not accepted *)
    destruct (Hd eq_refl) as [Hne _]. destruct (Hne (Hf eq_refl)).
  - repeat split; try discriminate; try apply Complete_never_sets_Prepare.
    intros; eapply CompletePrepare_sets_Prepare; eassumption.
  - repeat split; try discriminate; try apply Complete_never_sets_Prepare.
    intros; eapply CompletePrepare_sets_Prepare; eassumption.
  - destruct Hp; discriminate.
Qed.

Lemma Complete_resolves_mode_witness :
  mirror.Mode (Opts (Complete_exec (sample_env collected_all all_cached)
                       ["docker://registry.example:5000/mirror"]
                       (sample_world "file:///mnt/disk")))
  = mirror.DiskToMirror
  /\ mirror.WorkingDir
       (mirror.Global
          (Opts (Complete_exec (sample_env collected_all all_cached)
                   ["docker://registry.example:5000/mirror"]
                   (sample_world "file:///mnt/disk"))))
     = "/mnt/disk/working-dir".
Proof.
  destruct (Complete_resolves_mode (sample_env collected_all all_cached)
              (sample_world "file:///mnt/disk")
              "docker://registry.example:5000/mirror" [])
    as (_ & _ & Hdocker & _).
  - reflexivity.
  - split; reflexivity.
  - destruct (Hdocker eq_refl) as [Hm Hw]. split; [exact Hm | exact Hw].
Defined.

(** C10, as stated, fails: a destination that holds both protocols is
    rejected by [Validate] whatever the options are. *)
Lemma Validate_rejects_destination_with_both_protocols :
  ~ exists o : ExecutorSchema,
      Validate o ["file://docker://registry.example:5000/mirror"] = Returned None.
Proof.
  intros [o H]. apply Validate_nil_iff in H as (_ & Hd & Hf & _).
  destruct (Hd eq_refl) as [Hne _]. apply Hne. apply Hf. reflexivity.
Qed.

(** C10, amended: recognition is by containment.  A destination that holds
    exactly one of the two protocols, anywhere, is accepted by [Validate]
    (with a config path and the [--from] that protocol asks for) and gets
    its mode from [Complete]; a destination that holds both is rejected by
    [Validate], and [Complete], applied to it, takes the [file://] branch. *)
Theorem protocol_recognition_by_containment
  (E : Env) (w : World) (dest0 : string) (rest : list string) :
  mirror.ConfigPath (mirror.Global (Opts (exec w))) <> "" ->
  reaches_mode_logic E w ->
  (gostrings.Contains dest0 fileProtocol = true ->
   gostrings.Contains dest0 dockerProtocol = false ->
   mirror.From (mirror.Global (Opts (exec w))) = "" ->
   Validate (exec w) (dest0 :: rest) = Returned None
   /\ mirror.Mode (Opts (Complete_exec E (dest0 :: rest) w)) = mirror.MirrorToDisk)
  /\ (gostrings.Contains dest0 fileProtocol = false ->
      gostrings.Contains dest0 dockerProtocol = true ->
      mirror.From (mirror.Global (Opts (exec w))) <> "" ->
      gostrings.Contains (mirror.From (mirror.Global (Opts (exec w)))) fileProtocol = true ->
      Validate (exec w) (dest0 :: rest) = Returned None
      /\ mirror.Mode (Opts (Complete_exec E (dest0 :: rest) w)) = mirror.DiskToMirror)
  /\ (gostrings.Contains dest0 fileProtocol = true ->
      gostrings.Contains dest0 dockerProtocol = true ->
      Validate (exec w) (dest0 :: rest) <> Returned None
      /\ mirror.Mode (Opts (Complete_exec E (dest0 :: rest) w)) = mirror.MirrorToDisk).
Proof.
  intros Hc Hr.
  destruct (Complete_options E w dest0 rest Hr) as (Hm & _ & _).
  rewrite Hm. split; [| split].
  - (* file:// only *)
    intros HF HD Hfrom. rewrite HF. split; [| reflexivity].
    apply Validate_nil_iff. repeat split; try assumption; try congruence. now left.
  - (* docker:// only *)
    intros HF HD Hfrom Hpre. rewrite HF, HD. split; [| reflexivity].
    apply Validate_nil_iff. repeat split; try assumption; try congruence. now right.
  - (* both *)
    intros HF HD. rewrite HF. split; [| reflexivity].
    intros Hv. apply Validate_nil_iff in Hv as (_ & Hd & Hf & _).
    destruct (Hd HD) as [Hne _]. exact (Hne (Hf HF)).
Qed.

Lemma protocol_recognition_by_containment_witness :
  Validate (sample_exec "") ["archive+file://out"] = Returned None
  /\ mirror.Mode (Opts (Complete_exec (sample_env collected_all all_cached)
                          ["archive+file://out"] (sample_world "")))
     = mirror.MirrorToDisk.
Proof.
  destruct (protocol_recognition_by_containment (sample_env collected_all all_cached)
              (sample_world "") "archive+file://out" [])
    as (Hfile & _ & _).
  - discriminate.
  - split; reflexivity.
  - apply Hfile; reflexivity.
Defined.

(** ** Traces *)

Lemma precedesb_seen (P Q : Event -> bool) (tr : list Event) :
  forall seen, precedesb P Q seen tr = true ->
  forall pre ev post,
    tr = pre ++ ev :: post -> Q ev = true ->
    seen = true \/ exists ev', In ev' pre /\ P ev' = true.
Proof.
  induction tr as [|x tr IH]; intros seen Hb pre ev post Heq HQ.
  - destruct pre; discriminate Heq.
  - cbn in Hb. apply andb_true_iff in Hb as [Hx Hb].
    destruct pre as [|y pre]; cbn in Heq; injection Heq as -> ->.
    + rewrite HQ in Hx. cbn in Hx. now left.
    + destruct (IH _ Hb pre ev post eq_refl HQ) as [Hs | (ev' & Hin & HP)].
      * apply orb_true_iff in Hs as [Hs|Hs]; [now left|].
        right. exists y. split; [now left | exact Hs].
      * right. exists ev'. split; [now right | exact HP].
Qed.

Lemma precedesb_sound (P Q : Event -> bool) (tr : list Event) :
  precedesb P Q false tr = true -> precedes P Q tr.
Proof.
  intros Hb pre ev post Heq HQ.
  destruct (precedesb_seen P Q tr false Hb pre ev post Heq HQ) as [H|H];
    [discriminate H | exact H].
Qed.

Lemma count_events_app (P : Event -> bool) (l1 l2 : list Event) :
  count_events P (l1 ++ l2) = count_events P l1 + count_events P l2.
Proof. unfold count_events. now rewrite List.filter_app, length_app. Qed.

Lemma count_events_skip (P : Event -> bool) (ev : Event) (l : list Event) :
  P ev = false -> count_events P (ev :: l) = count_events P l.
Proof. unfold count_events. cbn. now intros ->. Qed.

(** ** The collection aggregator *)

(** C3: when the three collectors succeed, [CollectAll] returns the release
    list, then the operator list, then the additional-images list, each in
    its own order, with a nil error. *)
Theorem CollectAll_concatenates
  (E : Env) (w : World) (rel ops add : list v1alpha3.CopyImageSchema) :
  collect E Release = (rel, None) ->
  collect E Operator = (ops, None) ->
  collect E AdditionalImages = (add, None) ->
  outcome (CollectAll E w) = Returned (rel ++ ops ++ add, None).
Proof.
  intros HR HO HA. exec_go. rewrite HR. cbn. rewrite HO. cbn. rewrite HA. cbn.
  rewrite <- app_assoc. reflexivity.
Qed.

Lemma CollectAll_concatenates_witness :
  outcome (CollectAll (sample_env collected_all all_cached) (sample_world ""))
  = Returned ([r1; r2; o1; a1; a2], None).
Proof.
  apply (CollectAll_concatenates (sample_env collected_all all_cached)
           (sample_world "") [r1; r2] [o1] [a1; a2]); reflexivity.
Defined.

(** C4, as stated, fails: the list returned on a failure is empty, not the
    accumulator. *)
Lemma CollectAll_failure_drops_partial_result :
  exists l e,
    outcome (CollectAll (sample_env collected_operator_fails all_cached)
               (sample_world "")) = Returned (l, Some e)
    /\ partial_result (sample_env collected_operator_fails all_cached) = [r1]
    /\ l <> partial_result (sample_env collected_operator_fails all_cached).
Proof.
  exists [], (errorString "unable to read the operator catalog").
  repeat split. discriminate.
Qed.

(** C4, amended: when a collector fails, [CollectAll] calls no later
    collector, runs [cleanUp] once, right after the failing call, and
    returns that collector's error with an empty list. *)
Theorem CollectAll_aborts_on_failure
  (E : Env) (w : World) (c : Collector) (e : error) :
  first_failure E = Some (c, e) ->
  outcome (CollectAll E w) = Returned ([], Some e)
  /\ (forall c', Collector_rank c < Collector_rank c' ->
                 ~ In (EvCollect c') (events (CollectAll E w)))
  /\ (exists pre, events (CollectAll E w)
                  = pre ++ EvCollect c :: events (cleanUp w))
  /\ cleanUp_runs (events (CollectAll E w)) = 1.
Proof.
  unfold first_failure. intros H. exec_go.
  (destruct (collect E Release) as [rel [eR|]]; cbn;
   [| destruct (collect E Operator) as [ops [eO|]]; cbn;
      [| destruct (collect E AdditionalImages) as [add [eA|]]; cbn;
         [| discriminate H]]]);
    injection H as <- <-; destruct (registryLogFile w); cbn;
    (split; [reflexivity | split; [| split; [| reflexivity]]]);
    try (intros c' Hlt Hin; destruct c'; cbn in Hlt; try lia; cbn in Hin;
         intuition discriminate);
    first [ exists []; reflexivity
          | eexists [_; _]; reflexivity
          | eexists [_; _; _; _]; reflexivity ].
Qed.

Lemma CollectAll_aborts_on_failure_witness :
  outcome (CollectAll (sample_env collected_operator_fails all_cached) (sample_world ""))
  = Returned ([], Some (errorString "unable to read the operator catalog"))
  /\ ~ In (EvCollect AdditionalImages)
         (events (CollectAll (sample_env collected_operator_fails all_cached)
                    (sample_world "")))
  /\ cleanUp_runs (events (CollectAll (sample_env collected_operator_fails all_cached)
                             (sample_world ""))) = 1.
Proof.
  destruct (CollectAll_aborts_on_failure
              (sample_env collected_operator_fails all_cached) (sample_world "")
              Operator (errorString "unable to read the operator catalog"))
    as (Hout & Hlater & _ & Hclean).
  - reflexivity.
  - split; [exact Hout | split; [apply Hlater; cbn; lia | exact Hclean]].
Defined.

(** ** The content type tag *)

(** Once the three collectors have returned, the tag is ["operator"]: the
    release tag has been overwritten and the additional-images phase sets
    none. *)
Lemma CollectAll_leaves_operator_tag
  (E : Env) (w : World) (imgs : list v1alpha3.CopyImageSchema) :
  outcome (CollectAll E w) = Returned (imgs, None) ->
  mirror.ImageType (Opts (exec (world (CollectAll E w)))) = "operator".
Proof.
  exec_go. repeat (break_match; cbn; try discriminate). reflexivity.
Qed.

(** Whatever the batch worker is given in a run, it is given under the
    tag ["operator"]. *)
Lemma Run_transfers_under_operator_tag
  (E : Env) (w : World) (imgs : list v1alpha3.CopyImageSchema)
  (opts : mirror.CopyOptions) :
  In (EvBatchWorker imgs opts) (events (Run E w)) ->
  mirror.ImageType opts = "operator".
Proof.
  exec_go.
  repeat (break_match; cbn;
          try (intros Hin;
               repeat (destruct Hin as [Hin|Hin]; try discriminate Hin);
               first [ contradiction
                     | injection Hin as <- <-; reflexivity ])).
Qed.

(** C9 (defect of the code): the release, operator and additional images
    of a run are handed to the batch worker in one call, under the tag
    ["operator"]; no tag names the additional-images phase. *)
Theorem additional_images_transferred_under_operator_tag :
  In (EvBatchWorker [r1; r2; o1; a1; a2]
        (Opts (exec (world (Run (sample_env collected_all all_cached)
                              (mirror_to_disk_world collected_all))))))
     (events (Run (sample_env collected_all all_cached)
                (mirror_to_disk_world collected_all)))
  /\ mirror.ImageType
       (Opts (exec (world (Run (sample_env collected_all all_cached)
                             (mirror_to_disk_world collected_all)))))
     = "operator"
  /\ count_events (fun ev => match ev with EvBatchWorker _ _ => true | _ => false end)
       (events (Run (sample_env collected_all all_cached)
                  (mirror_to_disk_world collected_all))) = 1.
Proof.
  split; [| split; vm_compute; reflexivity].
  vm_compute. repeat (first [left; reflexivity | right]).
Qed.

(** ** Mirror to disk: the order of the closing steps *)

(** C5: in a mirror-to-disk run the normal-shutdown sentinel is sent before
    [BuildArchive] is called, [BuildArchive] has returned before a clock
    reading is logged, and [BuildArchive] is called only after the batch
    worker returned nil.  A run that returns nil has gone through the three
    steps once each. *)
Theorem RunMirrorToDisk_archive_order (E : Env) (w : World) :
  precedes is_sentinel_send is_BuildArchive (events (RunMirrorToDisk E w))
  /\ precedes is_BuildArchive is_time_log (events (RunMirrorToDisk E w))
  /\ precedes (is_successful_transfer E) is_BuildArchive (events (RunMirrorToDisk E w))
  /\ (outcome (RunMirrorToDisk E w) = Returned None ->
      count_events is_sentinel_send (events (RunMirrorToDisk E w)) = 1
      /\ count_events is_BuildArchive (events (RunMirrorToDisk E w)) = 1
      /\ count_events is_mirror_time_log (events (RunMirrorToDisk E w)) = 1).
Proof.
  exec_go.
  repeat (break_match; cbn);
    (split; [| split; [| split]]);
    try (apply precedesb_sound; cbn;
         repeat match goal with
                | H : Batch_Worker E _ _ = None |- _ => rewrite H
                end; reflexivity);
    try (intros Hout; discriminate Hout);
    intros _; repeat split; reflexivity.
Qed.

(** ** Cleanup *)

(** A run that returns has run [cleanUp] once, or twice when a collector
    failed: once in [CollectAll], once more in [Run]. *)
Lemma Run_cleanUp_runs (E : Env) (w : World) (r : option error) :
  outcome (Run E w) = Returned r ->
  cleanUp_runs (events (Run E w)) = if collection_fails E w then 2 else 1.
Proof.
  unfold collection_fails, first_failure. exec_go.
  unfold mirror.IsMirrorToDisk. cbn.
  repeat (break_match; cbn; try discriminate; try congruence; try reflexivity).
Qed.

(** C7 (defect of the code): when a collector fails, the run executes
    [cleanUp] twice; the second close of the registry log file fails and
    is reported on the standard error stream. *)
Theorem Run_cleans_up_twice_when_collection_fails :
  (* mirror to disk, the release collector fails *)
  outcome (Run (sample_env collected_release_fails all_cached)
             (mirror_to_disk_world collected_release_fails))
  = Returned (Some (errorString "unable to reach the update service"))
  /\ cleanUp_runs (events (Run (sample_env collected_release_fails all_cached)
                             (mirror_to_disk_world collected_release_fails))) = 2
  /\ count_events is_stderr
       (events (Run (sample_env collected_release_fails all_cached)
                  (mirror_to_disk_world collected_release_fails))) = 1
  (* disk to mirror, the operator collector fails *)
  /\ outcome (Run (sample_env collected_operator_fails all_cached)
                (disk_to_mirror_world collected_operator_fails))
     = Returned (Some (errorString "unable to read the operator catalog"))
  /\ cleanUp_runs (events (Run (sample_env collected_operator_fails all_cached)
                             (disk_to_mirror_world collected_operator_fails))) = 2.
Proof. repeat split; vm_compute; reflexivity. Qed.

(** ** The registry watcher *)

(** C6, as stated, fails: the nil signal, which is not the sentinel, does
    not make the watcher panic. *)
Lemma watcher_returns_on_nil_signal :
  is_sentinel (startLocalRegistry None) = false
  /\ panicOnRegistryError (startLocalRegistry None) = WatcherReturns.
Proof. split; reflexivity. Qed.

(** C6, amended: the watcher panics, with the error it received, on every
    non-nil value that is not the normal-shutdown sentinel; it returns on
    the sentinel and on nil.  The value the main flow sends before
    archiving is the sentinel. *)
Theorem panicOnRegistryError_escalates (received : option error) :
  (panicOnRegistryError received = WatcherReturns
   <-> received = None \/ is_sentinel received = true)
  /\ (forall e, received = Some e ->
                errors_Is_NormalStorageInterrupt e = false ->
                panicOnRegistryError received = WatcherPanics e)
  /\ panicOnRegistryError (Some interruptSig) = WatcherReturns.
Proof.
  unfold panicOnRegistryError, is_sentinel. repeat split.
  - destruct received as [e|]; [|now left].
    destruct (errors_Is_NormalStorageInterrupt e); cbn; [now right | discriminate].
  - intros [->|H]; [reflexivity|].
    destruct received as [e|]; [rewrite H; reflexivity | reflexivity].
  - intros e -> ->. reflexivity.
Qed.

(** ** The prepare path *)

Section PrepareFacts.

Variable E : Env.
Variable opts : mirror.CopyOptions.

(** The loop runs to its end, leaves the world as it is and computes the
    three variables as follows. *)
Lemma check_images_run (imgs : list v1alpha3.CopyImageSchema) :
  forall (m : gmap string bool) (missing : bool) (buff : string) (w : World),
    Opts (exec w) = opts ->
    check_images E imgs m missing buff w
    = mkResult
        (Returned (presence E opts imgs m, missing || existsb (absent E opts) imgs,
                   (buff ++ report_lines imgs)%string))
        w (check_events E opts imgs).
Proof.
  induction imgs as [|img rest IH]; intros m missing buff w Hw.
  - cbn. rewrite orb_false_r, append_empty_r. reflexivity.
  - cbn [check_images presence existsb report_lines check_events].
    unfold absent at 1. exec_go. rewrite Hw.
    destruct (Mirror_Check E (v1alpha3.Destination img) opts) as [found [e|]];
      cbn; rewrite (IH _ _ _ w Hw); cbn; rewrite append_assoc;
      destruct missing, found; reflexivity.
Qed.

Lemma presence_lookup_other (d : string) (imgs : list v1alpha3.CopyImageSchema) :
  forall m : gmap string bool,
    (forall img, In img imgs -> v1alpha3.Destination img <> d) ->
    presence E opts imgs m !! d = m !! d.
Proof.
  induction imgs as [|img rest IH]; intros m Hout; cbn [presence].
  - reflexivity.
  - rewrite IH by (intros i Hi; apply Hout; now right).
    apply lookup_insert_ne. apply Hout. now left.
Qed.

Lemma checked_or_not (d : string) (imgs : list v1alpha3.CopyImageSchema) :
  (exists img, In img imgs /\ v1alpha3.Destination img = d)
  \/ (forall img, In img imgs -> v1alpha3.Destination img <> d).
Proof.
  induction imgs as [|img rest [(i & Hi & Hd) | Hnot]].
  - right. intros img [].
  - left. exists i. split; [now right | exact Hd].
  - destruct (String.eqb_spec (v1alpha3.Destination img) d) as [Heq | Hne].
    + left. exists img. split; [now left | exact Heq].
    + right. intros i [<- | Hi]; [exact Hne | now apply Hnot].
Qed.

(** A destination that was checked is recorded with the answer of the
    check. *)
Lemma presence_lookup_checked (d : string) (imgs : list v1alpha3.CopyImageSchema) :
  forall m : gmap string bool,
    (exists img, In img imgs /\ v1alpha3.Destination img = d) ->
    presence E opts imgs m !! d = Some (fst (Mirror_Check E d opts)).
Proof.
  induction imgs as [|img rest IH]; intros m (i & Hi & Hd); cbn [presence].
  - destruct Hi.
  - destruct (checked_or_not d rest) as [Hlater | Hnot].
    + apply IH. exact Hlater.
    + rewrite presence_lookup_other by exact Hnot.
      destruct Hi as [<- | Hi].
      * rewrite Hd. apply lookup_insert_eq.
      * destruct (Hnot i Hi Hd).
Qed.

End PrepareFacts.

Lemma log_missing_run (entries : list (string * bool)) (w : World) :
  log_missing entries w = mkResult (Returned tt) w (missing_events entries).
Proof.
  revert w. induction entries as [|[d found] rest IH]; intros w; [reflexivity|].
  cbn [log_missing]. destruct found; exec_go; rewrite IH; reflexivity.
Qed.

Lemma missing_events_In (d : string) (entries : list (string * bool)) :
  In (missing_log d) (missing_events entries) <-> In (d, false) entries.
Proof.
  unfold missing_events, missing_log. rewrite in_map_iff. split.
  - intros ([d' found] & Heq & Hin). apply filter_In in Hin as [Hin Hf].
    cbn in Heq, Hf. injection Heq as ->. destruct found; [discriminate Hf | exact Hin].
  - intros Hin. exists (d, false). split; [reflexivity|].
    apply filter_In. split; [exact Hin | reflexivity].
Qed.

Lemma missing_events_no_write (entries : list (string * bool)) :
  count_events is_write (missing_events entries) = 0.
Proof.
  unfold missing_events, count_events.
  induction (List.filter _ entries) as [|en l IH]; [reflexivity | exact IH].
Qed.

Lemma check_events_no_write (E : Env) (opts : mirror.CopyOptions)
  (imgs : list v1alpha3.CopyImageSchema) :
  count_events is_write (check_events E opts imgs) = 0.
Proof.
  induction imgs as [|img rest IH]; [reflexivity|].
  cbn [check_events].
  change (EvMirrorCheck ?d ?o :: ?l) with ([EvMirrorCheck d o] ++ l).
  rewrite !count_events_app, IH.
  destruct (snd (Mirror_Check E _ opts)); reflexivity.
Qed.

Lemma check_events_no_missing_log (E : Env) (opts : mirror.CopyOptions) (d : string)
  (imgs : list v1alpha3.CopyImageSchema) :
  ~ In (missing_log d) (check_events E opts imgs).
Proof.
  induction imgs as [|img rest IH]; [intros []|].
  cbn [check_events]. intros [H|H]; [discriminate H|].
  apply in_app_iff in H as [H|H]; [|exact (IH H)].
  destruct (snd (Mirror_Check E _ opts)); [|destruct H].
  destruct H as [H|[]]. discriminate H.
Qed.

Lemma check_events_checks_all (E : Env) (opts : mirror.CopyOptions)
  (imgs : list v1alpha3.CopyImageSchema) (img : v1alpha3.CopyImageSchema) :
  In img imgs -> In (EvMirrorCheck (v1alpha3.Destination img) opts) (check_events E opts imgs).
Proof.
  induction imgs as [|i rest IH]; [intros []|].
  intros [->|H]; cbn [check_events]; [now left|].
  right. apply in_app_iff. right. exact (IH H).
Qed.

Lemma absent_false (E : Env) (opts : mirror.CopyOptions)
  (img : v1alpha3.CopyImageSchema) :
  absent E opts img = false ->
  Mirror_Check E (v1alpha3.Destination img) opts = (true, None).
Proof.
  unfold absent. destruct (Mirror_Check E _ opts) as [[|] [e|]]; cbn;
    intros H; try discriminate H; reflexivity.
Qed.

(** A prepare run whose collection succeeds, from end to end. *)
Lemma RunPrepare_run
  (E : Env) (w : World) (rel ops add : list v1alpha3.CopyImageSchema) :
  collect E Release = (rel, None) ->
  collect E Operator = (ops, None) ->
  collect E AdditionalImages = (add, None) ->
  os_Create E (cachedImagesFilePath E) = None ->
  outcome (RunPrepare E w) = Returned (prepare_verdict E w (rel ++ ops ++ add))
  /\ events (RunPrepare E w)
     = [EvCreate (cachedImagesFilePath E);
        EvLog LvlInfo "starting local storage on localhost:%v"
          [AInt (mirror.Port (mirror.Global (Opts (exec w))))];
        EvGoStartLocalRegistry]
       ++ collect_events rel ops add
       ++ check_events E (collection_opts w) (rel ++ ops ++ add)
       ++ [EvWrite (cachedImagesFilePath E) (report_lines (rel ++ ops ++ add))]
       ++ verdict_events E w (rel ++ ops ++ add)
       ++ [EvClose (cachedImagesFilePath E)].
Proof.
  intros HR HO HA HC.
  unfold RunPrepare, prepare_verdict, verdict_events.
  fold (cachedImagesFilePath E).
  exec_go. rewrite HC. cbn. rewrite HR. cbn. rewrite HO. cbn. rewrite HA. cbn.
  rewrite (check_images_run E (collection_opts w)) by reflexivity. cbn.
  rewrite <- app_assoc.
  change ("" +:+ report_lines (rel ++ ops ++ add))
    with (report_lines (rel ++ ops ++ add)).
  change (set_ImageType "operator" (set_ImageType "release" (Opts (exec w))))
    with (collection_opts w).
  destruct (file_Write E _ _) as [e|]; cbn.
  - split; [reflexivity|]. rewrite <- !app_assoc. reflexivity.
  - destruct (existsb _ _); cbn.
    + rewrite log_missing_run. cbn. split; [reflexivity|].
      rewrite <- !app_assoc. cbn. rewrite app_nil_r. reflexivity.
    + split; [reflexivity|]. rewrite <- !app_assoc. reflexivity.
Qed.

Lemma presence_lookup_false (E : Env) (opts : mirror.CopyOptions) (d : string)
  (imgs : list v1alpha3.CopyImageSchema) :
  presence E opts imgs ∅ !! d = Some false
  <-> exists img, In img imgs /\ v1alpha3.Destination img = d
                  /\ fst (Mirror_Check E d opts) = false.
Proof.
  destruct (checked_or_not d imgs) as [Hc | Hn].
  - rewrite (presence_lookup_checked E opts d imgs ∅ Hc). split.
    + intros H. injection H as H. destruct Hc as (img & Hin & Hd). eauto.
    + intros (_ & _ & _ & H). now rewrite H.
  - rewrite (presence_lookup_other E opts d imgs ∅ Hn), lookup_empty. split.
    + discriminate.
    + intros (img & Hin & Hd & _). destruct (Hn img Hin Hd).
Qed.

(** C8, as stated, fails: the error of a prepare run that found an image
    missing is a fixed message; it does not name the missing destination. *)
Lemma RunPrepare_error_names_no_destination :
  exists e,
    outcome (RunPrepare (sample_env collected_three cached_but_a1)
               (prepare_world collected_three))
    = Returned (Some e)
    /\ absent (sample_env collected_three cached_but_a1)
         (collection_opts (prepare_world collected_three)) a1 = true
    /\ gostrings.Contains (Error e) (v1alpha3.Destination a1) = false.
Proof. exists err_not_in_cache. repeat split; vm_compute; reflexivity. Qed.

(** C8, amended: in a prepare run whose collection succeeds, every
    collected destination is checked and the report, one line per
    destination whatever the check answered, is written in one write.
    When that write succeeds, the run fails if and only if a check failed
    or answered false, with a fixed error that names no destination; the
    missing destinations are logged, one line for each destination recorded
    as absent.  When the write fails the run returns the error of the
    write and logs no destination.  Whatever the write does, the run
    returns nil only if the report was written and every check answered
    true. *)
Theorem RunPrepare_reports_and_fails_on_missing
  (E : Env) (w : World) (rel ops add : list v1alpha3.CopyImageSchema) :
  collect E Release = (rel, None) ->
  collect E Operator = (ops, None) ->
  collect E AdditionalImages = (add, None) ->
  os_Create E (cachedImagesFilePath E) = None ->
  In (EvWrite (cachedImagesFilePath E) (report_lines (rel ++ ops ++ add)))
     (events (RunPrepare E w))
  /\ count_events is_write (events (RunPrepare E w)) = 1
  /\ (forall img, In img (rel ++ ops ++ add) ->
        In (EvMirrorCheck (v1alpha3.Destination img) (collection_opts w))
           (events (RunPrepare E w)))
  /\ (file_Write E (cachedImagesFilePath E) (report_lines (rel ++ ops ++ add)) = None ->
      outcome (RunPrepare E w)
      = Returned (if existsb (absent E (collection_opts w)) (rel ++ ops ++ add)
                  then Some err_not_in_cache else None)
      /\ (forall d,
            In (missing_log d) (events (RunPrepare E w))
            <-> existsb (absent E (collection_opts w)) (rel ++ ops ++ add) = true
                /\ exists img, In img (rel ++ ops ++ add)
                               /\ v1alpha3.Destination img = d
                               /\ fst (Mirror_Check E d (collection_opts w)) = false)
      /\ (outcome (RunPrepare E w) = Returned None ->
          forall img, In img (rel ++ ops ++ add) ->
            Mirror_Check E (v1alpha3.Destination img) (collection_opts w)
            = (true, None)))
  /\ (forall e,
        file_Write E (cachedImagesFilePath E) (report_lines (rel ++ ops ++ add)) = Some e ->
        outcome (RunPrepare E w) = Returned (Some e)
        /\ forall d, ~ In (missing_log d) (events (RunPrepare E w)))
  /\ (outcome (RunPrepare E w) = Returned None ->
      file_Write E (cachedImagesFilePath E) (report_lines (rel ++ ops ++ add)) = None
      /\ forall img, In img (rel ++ ops ++ add) ->
           Mirror_Check E (v1alpha3.Destination img) (collection_opts w)
           = (true, None)).
Proof.
  intros HR HO HA HC.
  destruct (RunPrepare_run E w rel ops add HR HO HA HC) as [Hout Hev].
  rewrite Hout, Hev. clear Hout Hev.
  unfold prepare_verdict, verdict_events.
  set (all := rel ++ ops ++ add).
  set (opts := collection_opts w).
  assert (existsb (absent E opts) all = false ->
          forall img, In img all ->
            Mirror_Check E (v1alpha3.Destination img) opts = (true, None)) as Hpresent.
  { intros Hab img Hin.
    apply absent_false. destruct (absent E opts img) eqn:Himg; [|reflexivity].
    assert (existsb (absent E opts) all = true) as Hex
      by (apply existsb_exists; exists img; split; assumption).
    congruence. }
  repeat apply conj.
  - rewrite !in_app_iff. do 3 right. left. now left.
  - rewrite !count_events_app, check_events_no_write.
    destruct (file_Write E _ _); [reflexivity|].
    destruct (existsb _ _); [|reflexivity].
    rewrite (count_events_skip is_write (EvLog LvlError "missing images: " []))
      by reflexivity.
    rewrite missing_events_no_write. reflexivity.
  - intros img Hin. rewrite !in_app_iff. do 2 right. left.
    now apply check_events_checks_all.
  - intros HW. rewrite HW. repeat apply conj.
    + reflexivity.
    + intros d. rewrite !in_app_iff.
      pose proof (check_events_no_missing_log E opts d all) as Hno.
      destruct (existsb (absent E opts) all) eqn:Hab.
      * rewrite <- presence_lookup_false, <- elem_of_map_to_list, list_elem_of_In.
        rewrite <- missing_events_In. cbn. unfold missing_log in *.
        intuition (try discriminate; try congruence).
      * cbn. unfold missing_log in *. intuition (try discriminate; try congruence).
    + destruct (existsb (absent E opts) all) eqn:Hab; [discriminate|].
      intros _. exact (Hpresent eq_refl).
  - intros e HW. rewrite HW. split; [reflexivity|].
    intros d. rewrite !in_app_iff.
    pose proof (check_events_no_missing_log E opts d all) as Hno.
    cbn. unfold missing_log in *. intuition (try discriminate; try congruence).
  - destruct (file_Write E _ _) as [e|]; [discriminate|].
    destruct (existsb (absent E opts) all) eqn:Hab; [discriminate|].
    intros _. split; [reflexivity | exact (Hpresent eq_refl)].
Qed.

Lemma RunPrepare_reports_and_fails_on_missing_witness :
  outcome (RunPrepare (sample_env collected_three cached_but_a1)
             (prepare_world collected_three))
  = Returned (Some err_not_in_cache)
  /\ In (EvWrite "logs/cached-images.txt"
           (report_lines [r1; o1; a1]))
        (events (RunPrepare (sample_env collected_three cached_but_a1)
                   (prepare_world collected_three)))
  /\ (In (missing_log (v1alpha3.Destination a1))
        (events (RunPrepare (sample_env collected_three cached_but_a1)
                   (prepare_world collected_three)))).
Proof.
  destruct (RunPrepare_reports_and_fails_on_missing
              (sample_env collected_three cached_but_a1)
              (prepare_world collected_three) [r1] [o1] [a1])
    as (Hwrite & _ & _ & Hverdict & _); try reflexivity.
  destruct Hverdict as (Hout & Hlog & _); [reflexivity|].
  split; [exact Hout | split; [exact Hwrite |]].
  apply Hlog. split; [reflexivity|].
  exists a1. split; [right; right; left; reflexivity | split; reflexivity].
Defined.

(** * Further properties *)

#[local] Hint Unfold PrepareStorageAndLogs setup_failed mirrorCmd_Run prepareCmd_Run : go.
#[local] Arguments registry_config : simpl never.

(** ** Validation *)

(** X1: what [Validate] accepts are two shapes, and no other: a destination
    that holds [file://] and not [docker://] with an empty [--from], or a
    destination that holds [docker://] and not [file://] with a [--from]
    that holds [file://]; in both a config path is given. *)
Theorem Validate_accepted_shapes
  (o : ExecutorSchema) (dest0 : string) (rest : list string) :
  Validate o (dest0 :: rest) = Returned None <->
    mirror.ConfigPath (mirror.Global (Opts o)) <> ""
    /\ ((gostrings.Contains dest0 fileProtocol = true
         /\ gostrings.Contains dest0 dockerProtocol = false
         /\ mirror.From (mirror.Global (Opts o)) = "")
        \/ (gostrings.Contains dest0 dockerProtocol = true
            /\ gostrings.Contains dest0 fileProtocol = false
            /\ mirror.From (mirror.Global (Opts o)) <> ""
            /\ gostrings.Contains (mirror.From (mirror.Global (Opts o))) fileProtocol
               = true)).
Proof.
  rewrite Validate_nil_iff.
  destruct (gostrings.Contains dest0 fileProtocol);
    destruct (gostrings.Contains dest0 dockerProtocol); split.
  - intros (_ & Hd & Hf & _). destruct (Hd eq_refl) as [Hne _].
    destruct (Hne (Hf eq_refl)).
  - intros (_ & [(_ & H & _) | (_ & H & _)]); discriminate H.
  - intros (Hc & _ & Hf & _). split; [exact Hc | left]. auto.
  - intros (Hc & [(_ & _ & Hfrom) | (H & _)]); [| discriminate H].
    repeat split; try assumption; try discriminate; auto.
  - intros (Hc & Hd & _ & _). split; [exact Hc | right].
    destruct (Hd eq_refl). auto.
  - intros (Hc & [(H & _) | (_ & _ & Hne & Hpre)]); [discriminate H |].
    repeat split; try assumption; try discriminate; auto.
  - intros (_ & _ & _ & [H | H]); discriminate H.
  - intros (_ & [(H & _) | (H & _)]); discriminate H.
Qed.

(** X2: the config rule comes first and does not look at the arguments:
    without a config path [Validate] returns the config error even on an
    empty argument list.  With a config path, an empty argument list makes
    [dest[0]] panic.  Arguments after the first are never read. *)
Theorem Validate_reads_config_then_first_argument (o : ExecutorSchema) :
  (mirror.ConfigPath (mirror.Global (Opts o)) = "" ->
   forall args, Validate o args = Returned (Some err_config_mandatory))
  /\ (mirror.ConfigPath (mirror.Global (Opts o)) <> "" ->
      Validate o [] = Panicked)
  /\ (forall dest0 rest, Validate o (dest0 :: rest) = Validate o [dest0]).
Proof.
  unfold Validate. rewrite len_zero_empty. repeat split.
  - intros ->. reflexivity.
  - intros Hc. destruct (String.eqb_spec (mirror.ConfigPath (mirror.Global (Opts o))) "");
      [contradiction | reflexivity].
Qed.

(** X3: [ValidatePrepare] accepts exactly a config path together with a
    non-empty [--from] that holds [file://]; it never reads its arguments.
    An empty [--from] is reported as missing, not as lacking the prefix. *)
Theorem ValidatePrepare_accepts (o : ExecutorSchema) (args : list string) :
  (ValidatePrepare o args = None <->
     mirror.ConfigPath (mirror.Global (Opts o)) <> ""
     /\ mirror.From (mirror.Global (Opts o)) <> ""
     /\ gostrings.Contains (mirror.From (mirror.Global (Opts o))) fileProtocol = true)
  /\ ValidatePrepare o args = ValidatePrepare o []
  /\ (mirror.ConfigPath (mirror.Global (Opts o)) <> "" ->
      mirror.From (mirror.Global (Opts o)) = "" ->
      ValidatePrepare o args
      = Some (errorString
                "with prepare command, the --from argument become mandatory(prefix : file://)")).
Proof.
  unfold ValidatePrepare. rewrite len_zero_empty.
  destruct (String.eqb_spec (mirror.ConfigPath (mirror.Global (Opts o))) "") as [Hc|Hc];
    destruct (String.eqb_spec (mirror.From (mirror.Global (Opts o))) "") as [Hf|Hf];
    destruct (gostrings.Contains (mirror.From (mirror.Global (Opts o))) fileProtocol);
    cbn; repeat split; try discriminate; try congruence;
    try (intros (H1 & H2 & H3); congruence).
Qed.

(** ** Setup *)

(** X4: the working directory layout is created fail-fast.  [setupWorkingDir]
    creates the working directory, then [signatures], [release-images],
    [hold-release] and [hold-operator] under it, stops at the first
    directory that cannot be created and returns that error; it changes
    nothing in the executor. *)
Theorem setupWorkingDir_layout (E : Env) (w : World) :
  outcome (setupWorkingDir E w)
  = Returned (first_mkdir_error E
                (working_dirs (mirror.WorkingDir (mirror.Global (Opts (exec w))))))
  /\ world (setupWorkingDir E w) = w
  /\ MkdirAll_paths (events (setupWorkingDir E w))
     = attempted E (working_dirs (mirror.WorkingDir (mirror.Global (Opts (exec w))))).
Proof.
  unfold working_dirs. exec_go.
  repeat (break_match; cbn; try (repeat split; reflexivity)).
Qed.

(** X5: the cache directory is [.oc-mirror/.cache] under the directory
    named by [OC_MIRROR_CACHE], or under the home directory when that
    variable is empty.  When the home directory cannot be found the error
    comes back and nothing is created or changed.  The options are never
    touched. *)
Theorem setupLocalStorageDir_resolution (E : Env) (w : World) :
  (os_Getenv E cacheEnvVar <> "" ->
   LocalStorageDisk (exec (world (setupLocalStorageDir E w)))
   = filepath_Join E (os_Getenv E cacheEnvVar) cacheRelativePath
   /\ outcome (setupLocalStorageDir E w)
      = Returned (os_MkdirAll E
                    (filepath_Join E (os_Getenv E cacheEnvVar) cacheRelativePath)))
  /\ (os_Getenv E cacheEnvVar = "" ->
      snd (os_UserHomeDir E) = None ->
      LocalStorageDisk (exec (world (setupLocalStorageDir E w)))
      = filepath_Join E (fst (os_UserHomeDir E)) cacheRelativePath
      /\ outcome (setupLocalStorageDir E w)
         = Returned (os_MkdirAll E
                       (filepath_Join E (fst (os_UserHomeDir E)) cacheRelativePath)))
  /\ (os_Getenv E cacheEnvVar = "" ->
      forall e, snd (os_UserHomeDir E) = Some e ->
      setupLocalStorageDir E w = mkResult (Returned (Some e)) w [])
  /\ Opts (exec (world (setupLocalStorageDir E w))) = Opts (exec w).
Proof.
  exec_go.
  destruct (String.eqb_spec (os_Getenv E cacheEnvVar) "") as [Hg|Hg];
    destruct (os_UserHomeDir E) as [home [eh|]]; cbn;
    repeat (break_match; cbn);
    repeat split; intros; try congruence; try discriminate.
Qed.

(** X6: [Complete] stops early without touching anything but the logs
    directory: when the logs directory cannot be created, or when the
    configuration cannot be read, it returns that error, leaves the
    executor as it was and creates no other directory. *)
Theorem Complete_fails_fast (E : Env) (w : World) (args : list string) (e : error) :
  os_MkdirAll E logsDir = Some e
  \/ (os_MkdirAll E logsDir = None
      /\ snd (config_ReadConfig E (mirror.ConfigPath (mirror.Global (Opts (exec w)))))
         = Some e) ->
  outcome (Complete E args w) = Returned (Some e)
  /\ world (Complete E args w) = w
  /\ MkdirAll_paths (events (Complete E args w)) = [logsDir].
Proof.
  intros [H | [H1 H2]]; exec_go.
  - rewrite H. cbn. destruct w as [o f]. repeat split.
  - rewrite H1. cbn. destruct (config_ReadConfig E _) as [cfg c]. cbn in H2. subst c.
    cbn. destruct w as [o f]. repeat split.
Qed.

Lemma Complete_fails_fast_witness :
  outcome (Complete env_without_config ["file://out"] (sample_world ""))
  = Returned (Some (errorString "open isc.yaml: no such file or directory"))
  /\ world (Complete env_without_config ["file://out"] (sample_world ""))
     = sample_world "".
Proof.
  destruct (Complete_fails_fast env_without_config (sample_world "") ["file://out"]
              (errorString "open isc.yaml: no such file or directory"))
    as (Hout & Hw & _).
  - right. split; reflexivity.
  - split; [exact Hout | exact Hw].
Defined.

(** X7: [Complete] indexes its argument list after it has read the
    configuration: on an empty list it panics there, with the mode and the
    options as they were and only the logs directory created. *)
Theorem Complete_panics_on_empty_arguments (E : Env) (w : World) :
  reaches_mode_logic E w ->
  outcome (Complete E [] w) = Panicked
  /\ Opts (exec (world (Complete E [] w))) = Opts (exec w)
  /\ MkdirAll_paths (events (Complete E [] w)) = [logsDir].
Proof.
  intros [H1 H2]. exec_go. rewrite H1. cbn.
  destruct (config_ReadConfig E _) as [cfg c]. cbn in H2. subst c. cbn.
  repeat split.
Qed.

Lemma Complete_panics_on_empty_arguments_witness :
  outcome (Complete (sample_env collected_all all_cached) [] (sample_world ""))
  = Panicked.
Proof.
  destruct (Complete_panics_on_empty_arguments (sample_env collected_all all_cached)
              (sample_world "")) as (Hout & _).
  - split; reflexivity.
  - exact Hout.
Defined.

(** X8: when [Complete] returns nil on arguments [Validate] accepted, the
    collaborator [Run] will call exists: the archiver for a [file://]
    destination, the extractor for a [docker://] destination, the other one
    left as it was.  The logs directory, the five working directories and
    the cache directory have all been created, in that order. *)
Theorem Complete_constructs_collaborator
  (E : Env) (w : World) (dest0 : string) (rest : list string) :
  Validate (exec w) (dest0 :: rest) = Returned None ->
  outcome (Complete E (dest0 :: rest) w) = Returned None ->
  (gostrings.Contains dest0 fileProtocol = true ->
   MirrorArchiver (Complete_exec E (dest0 :: rest) w) = true
   /\ MirrorUnArchiver (Complete_exec E (dest0 :: rest) w) = MirrorUnArchiver (exec w))
  /\ (gostrings.Contains dest0 dockerProtocol = true ->
      MirrorUnArchiver (Complete_exec E (dest0 :: rest) w) = true
      /\ MirrorArchiver (Complete_exec E (dest0 :: rest) w) = MirrorArchiver (exec w))
  /\ MkdirAll_paths (events (Complete E (dest0 :: rest) w))
     = logsDir
       :: working_dirs
            (mirror.WorkingDir (mirror.Global (Opts (Complete_exec E (dest0 :: rest) w))))
       ++ [LocalStorageDisk (Complete_exec E (dest0 :: rest) w)].
Proof.
  intros Hv. apply Validate_nil_iff in Hv as (_ & Hd & Hf & Hp).
  unfold Complete_exec, working_dirs. exec_go.
  unfold mirror.IsMirrorToDisk, mirror.IsDiskToMirror.
  destruct (gostrings.Contains dest0 fileProtocol) eqn:HF;
    destruct (gostrings.Contains dest0 dockerProtocol) eqn:HD;
    try (destruct (Hd eq_refl) as [Hne _]; destruct (Hne (Hf eq_refl)));
    try (destruct Hp; discriminate);
    repeat (break_match; cbn; try (intros Hout; discriminate Hout));
    intros _; repeat split; intros; try discriminate; reflexivity.
Qed.

Lemma Complete_constructs_collaborator_witness :
  MirrorArchiver (Complete_exec (sample_env collected_all all_cached)
                    ["file://out"] (sample_world "")) = true
  /\ MkdirAll_paths (events (Complete (sample_env collected_all all_cached)
                               ["file://out"] (sample_world "")))
     = ["logs"; "out/working-dir"; "out/working-dir/signatures";
        "out/working-dir/release-images"; "out/working-dir/hold-release";
        "out/working-dir/hold-operator"; "/home/user/.oc-mirror/.cache"].
Proof.
  destruct (Complete_constructs_collaborator (sample_env collected_all all_cached)
              (sample_world "") "file://out" []) as (Hfile & _ & Hdirs).
  - reflexivity.
  - reflexivity.
  - split; [apply Hfile; reflexivity | exact Hdirs].
Defined.

(** X9: [Complete] does not reject a destination without a protocol: it
    logs that the mode cannot be determined and goes on.  From a fresh
    executor and with the system calls succeeding it returns nil, with the
    mode still unset, neither archive component constructed and the working
    directory under the empty root. *)
Theorem Complete_goes_on_without_mode
  (E : Env) (w : World) (dest0 : string) (rest : list string) :
  unrecognized dest0 ->
  reaches_mode_logic E w ->
  system_ok E ->
  mirror.Mode (Opts (exec w)) = mirror.ModeUnset ->
  outcome (Complete E (dest0 :: rest) w) = Returned None
  /\ mirror.Mode (Opts (Complete_exec E (dest0 :: rest) w)) = mirror.ModeUnset
  /\ mirror.WorkingDir (mirror.Global (Opts (Complete_exec E (dest0 :: rest) w)))
     = filepath_Join E "" workingDir
  /\ MirrorArchiver (Complete_exec E (dest0 :: rest) w) = MirrorArchiver (exec w)
  /\ MirrorUnArchiver (Complete_exec E (dest0 :: rest) w) = MirrorUnArchiver (exec w)
  /\ In (EvLog LvlError
           "unable to determine the mode (the destination must be either file:// or docker://)"
           [])
        (events (Complete E (dest0 :: rest) w)).
Proof.
  intros [HF HD] [H1 H2] [Hmk Hhome] Hmode.
  unfold Complete_exec. exec_go.
  unfold mirror.IsMirrorToDisk, mirror.IsDiskToMirror.
  rewrite ?Hmk. cbn.
  destruct (config_ReadConfig E _) as [cfg c]. cbn in H2. subst c. cbn.
  rewrite HF, HD. cbn. rewrite ?Hmk. cbn.
  destruct (os_UserHomeDir E) as [home eh]. cbn in Hhome. subst eh.
  destruct (String.eqb (os_Getenv E cacheEnvVar) ""); cbn; rewrite ?Hmk; cbn;
    rewrite Hmode; cbn; repeat split; auto 10.
Qed.

Lemma Complete_goes_on_without_mode_witness :
  outcome (Complete (sample_env collected_all all_cached) ["oci://out"]
             (sample_world "")) = Returned None
  /\ mirror.Mode (Opts (Complete_exec (sample_env collected_all all_cached)
                          ["oci://out"] (sample_world ""))) = mirror.ModeUnset.
Proof.
  destruct (Complete_goes_on_without_mode (sample_env collected_all all_cached)
              (sample_world "") "oci://out" []) as (Hout & Hmode & _).
  - split; reflexivity.
  - split; reflexivity.
  - split; [intros p|]; reflexivity.
  - reflexivity.
  - split; [exact Hout | exact Hmode].
Defined.

(** ** The prepare setup *)

(** A string without the separator is one piece. *)
Lemma SplitFrom_no_sep (sep : string) (s : string) :
  forall cur, gostrings.Contains s sep = false ->
              gostrings.SplitFrom sep 0 cur s = [(cur ++ s)%string].
Proof.
  induction s as [|c s IH]; intros cur H.
  - cbn. now rewrite append_empty_r.
  - unfold gostrings.Contains in H. fold gostrings.Contains in H.
    apply orb_false_iff in H as [Hp Hc].
    cbn [gostrings.SplitFrom]. rewrite Hp.
    rewrite (IH _ Hc), append_assoc. reflexivity.
Qed.

Lemma HasPrefix_empty (s : string) : gostrings.HasPrefix s "" = true.
Proof. destruct s; reflexivity. Qed.

(** [file://<path>] is cut in ["file"] and the path. *)
Lemma Split_file_path (path : string) :
  gostrings.Contains path "://" = false ->
  gostrings.Split (fileProtocol ++ path) "://" = ["file"; path].
Proof.
  intros Hpath. unfold gostrings.Split, fileProtocol.
  change ("file://" ++ path)%string
    with (String "f" (String "i" (String "l" (String "e"
            (String ":" (String "/" (String "/" path))))))).
  do 4 (cbn [gostrings.SplitFrom];
        match goal with
        | |- context [gostrings.HasPrefix ?s "://"] =>
            change (gostrings.HasPrefix s "://") with false
        end; cbv iota).
  cbn [gostrings.SplitFrom].
  assert (gostrings.HasPrefix (String ":" (String "/" (String "/" path))) "://" = true)
    as -> by (cbn; apply HasPrefix_empty).
  cbn [gostrings.SplitFrom String.length Nat.sub].
  rewrite (SplitFrom_no_sep "://" path "" Hpath). reflexivity.
Qed.

Lemma TrimPrefix_file_path (path : string) :
  gostrings.TrimPrefix (fileProtocol ++ path) fileProtocol = path.
Proof.
  unfold gostrings.TrimPrefix, fileProtocol.
  assert (gostrings.HasPrefix ("file://" ++ path) "file://" = true) as ->
    by (change ("file://" ++ path)%string
          with (String "f" (String "i" (String "l" (String "e"
                  (String ":" (String "/" (String "/" path)))))));
        cbn; apply HasPrefix_empty).
  reflexivity.
Qed.

(** X10: [CompletePrepare] relies on [ValidatePrepare]: with a [--from]
    that holds no ["://"], [strings.Split(...)[1]] is out of range and the
    function panics, after the configuration was read and before the mode
    is set. *)
Theorem CompletePrepare_panics_without_separator
  (E : Env) (w : World) (args : list string) :
  gostrings.Contains (mirror.From (mirror.Global (Opts (exec w)))) "://" = false ->
  reaches_mode_logic E w ->
  outcome (CompletePrepare E args w) = Panicked
  /\ Opts (CompletePrepare_exec E args w) = Opts (exec w).
Proof.
  intros Hc [H1 H2].
  pose proof (SplitFrom_no_sep "://" _ "" Hc) as Hs.
  fold (gostrings.Split (mirror.From (mirror.Global (Opts (exec w)))) "://") in Hs.
  unfold CompletePrepare_exec. exec_go. rewrite H1. cbn.
  destruct (config_ReadConfig E _) as [cfg c]. cbn in H2. subst c. cbn.
  rewrite Hs. cbn. split; reflexivity.
Qed.

Lemma CompletePrepare_panics_without_separator_witness :
  outcome (CompletePrepare (sample_env collected_all all_cached) []
             (sample_world "/mnt/disk")) = Panicked.
Proof.
  destruct (CompletePrepare_panics_without_separator
              (sample_env collected_all all_cached) (sample_world "/mnt/disk") [])
    as (Hout & _).
  - reflexivity.
  - split; reflexivity.
  - exact Hout.
Defined.

(** X11: for a [--from] of the form [file://<path>] whose path holds no
    ["://"], the prepare command works in the directory the disk-to-mirror
    workflow will use: [CompletePrepare] and [Complete] (on a [docker://]
    destination) set the same working directory, [<path>/working-dir]. *)
Theorem CompletePrepare_working_dir_matches_Complete
  (E : Env) (w : World) (path dest0 : string) (args rest : list string) :
  mirror.From (mirror.Global (Opts (exec w))) = (fileProtocol ++ path)%string ->
  gostrings.Contains path "://" = false ->
  gostrings.Contains dest0 fileProtocol = false ->
  gostrings.Contains dest0 dockerProtocol = true ->
  reaches_mode_logic E w ->
  mirror.WorkingDir (mirror.Global (Opts (CompletePrepare_exec E args w)))
  = filepath_Join E path workingDir
  /\ mirror.WorkingDir (mirror.Global (Opts (Complete_exec E (dest0 :: rest) w)))
     = filepath_Join E path workingDir.
Proof.
  intros Hfrom Hpath HF HD Hr. split.
  - destruct Hr as [H1 H2].
    pose proof (Split_file_path path Hpath) as Hs.
    unfold CompletePrepare_exec. exec_go. rewrite H1. cbn.
    destruct (config_ReadConfig E _) as [cfg c]. cbn in H2. subst c. cbn.
    rewrite Hfrom, Hs. cbn.
    repeat (break_match; cbn; try reflexivity).
  - destruct (Complete_options E w dest0 rest Hr) as (_ & Hw & _).
    rewrite Hw. unfold rootDir_of. rewrite HF, HD, Hfrom, TrimPrefix_file_path.
    reflexivity.
Qed.

Lemma CompletePrepare_working_dir_matches_Complete_witness :
  mirror.WorkingDir
    (mirror.Global
       (Opts (CompletePrepare_exec (sample_env collected_all all_cached) []
                (sample_world "file:///mnt/disk"))))
  = "/mnt/disk/working-dir".
Proof.
  destruct (CompletePrepare_working_dir_matches_Complete
              (sample_env collected_all all_cached) (sample_world "file:///mnt/disk")
              "/mnt/disk" "docker://registry.example:5000/mirror" [] [])
    as (Hprep & _).
  - reflexivity.
  - reflexivity.
  - reflexivity.
  - reflexivity.
  - split; reflexivity.
  - exact Hprep.
Defined.

(** ** The registry configuration *)

Lemma HasPrefix_self (old rest : string) :
  gostrings.HasPrefix (old ++ rest) old = true.
Proof.
  induction old as [|c old IH]; [apply HasPrefix_empty|].
  change (String c old ++ rest)%string with (String c (old ++ rest)).
  cbn [gostrings.HasPrefix]. now rewrite Ascii.eqb_refl.
Qed.

Lemma drop_self (old rest : string) :
  gostrings.drop (String.length old) (old ++ rest) = rest.
Proof.
  induction old as [|c old IH]; [reflexivity|].
  change (String c old ++ rest)%string with (String c (old ++ rest)).
  exact IH.
Qed.

(** An occurrence at the front is the leftmost one. *)
Lemma Replace1_here (old new rest : string) :
  Replace1 (old ++ rest) old new = (new ++ rest)%string.
Proof.
  destruct (old ++ rest)%string eqn:Heq; cbn [Replace1]; rewrite <- Heq;
    now rewrite HasPrefix_self, drop_self.
Qed.

(** No occurrence of a placeholder starts in a text without a dollar. *)
Lemma Replace1_no_dollar (r rest old new : string) :
  no_dollar r = true ->
  Replace1 (r ++ rest) (String "$" old) new
  = (r ++ Replace1 rest (String "$" old) new)%string.
Proof.
  induction r as [|c r IH]; intros H; [reflexivity|].
  cbn [no_dollar] in H. apply andb_true_iff in H as [Hc Hr].
  change (String c r ++ rest)%string with (String c (r ++ rest)).
  change (String c r ++ Replace1 rest (String "$" old) new)%string
    with (String c (r ++ Replace1 rest (String "$" old) new)).
  cbn [Replace1 gostrings.HasPrefix].
  destruct (Ascii.eqb c "$"); [discriminate Hc|]. now rewrite (IH Hr).
Qed.

Lemma template_split :
  configYamlV0_1 = (template_head ++ "$$PLACEHOLDER_ROOT$$"
                      ++ template_tail "$$PLACEHOLDER_PORT$$")%string.
Proof. vm_compute. reflexivity. Qed.

Lemma Replace1_root (root : string) :
  Replace1 configYamlV0_1 "$$PLACEHOLDER_ROOT$$" root
  = (template_head ++ root ++ template_tail "$$PLACEHOLDER_PORT$$")%string.
Proof. vm_compute. reflexivity. Qed.

(** The port placeholder is not in the head of the template. *)
Lemma Replace1_port_head (rest p : string) :
  Replace1 (template_head ++ rest) "$$PLACEHOLDER_PORT$$" p
  = (template_head ++ Replace1 rest "$$PLACEHOLDER_PORT$$" p)%string.
Proof. vm_compute. reflexivity. Qed.

Lemma Replace1_port_tail (p : string) :
  Replace1 (template_tail "$$PLACEHOLDER_PORT$$") "$$PLACEHOLDER_PORT$$" p
  = template_tail p.
Proof. vm_compute. reflexivity. Qed.

(** The level and the access log placeholders are in the head. *)
Lemma Replace1_level_access (flag level root addr : string) :
  Replace1
    (Replace1 (template_head ++ root ++ template_tail addr)
       "$$PLACEHOLDER_LOG_LEVEL$$" level)
    "$$PLACEHOLDER_ACCESS_LOG_OFF$$" flag
  = registry_config_lines flag level root addr.
Proof. vm_compute. reflexivity. Qed.

(** X12: the registry configuration is the template with the access log
    switch, the log level, the cache directory and the port in their
    places, provided the cache directory holds no dollar sign.  The access
    log is enabled for the log level [debug] and disabled for every other
    level. *)
Theorem registry_config_filled (root logLevel : string) (port : Z) :
  no_dollar root = true ->
  registry_config root port logLevel
  = registry_config_lines (accesslog_disabled logLevel) logLevel root (Itoa port).
Proof.
  intros Hroot. unfold registry_config, accesslog_disabled.
  rewrite Replace1_root, Replace1_port_head.
  rewrite (Replace1_no_dollar root _ _ _ Hroot), Replace1_port_tail.
  destruct (String.eqb logLevel "debug"); apply Replace1_level_access.
Qed.

Lemma registry_config_filled_witness :
  registry_config "/cache" 5000 "debug"
  = registry_config_lines "false" "debug" "/cache" "5000".
Proof. apply (registry_config_filled "/cache" "debug" 5000). reflexivity. Defined.

(** X13: the substitutions are made one after the other on the whole text,
    the root before the port.  A cache directory that itself holds the
    port placeholder captures the port: the port lands in the root
    directory line and the listen address keeps the placeholder. *)
Theorem registry_config_root_captures_port (r1 r2 logLevel : string) (port : Z) :
  no_dollar r1 = true ->
  registry_config (r1 ++ "$$PLACEHOLDER_PORT$$" ++ r2) port logLevel
  = registry_config_lines (accesslog_disabled logLevel) logLevel
      (r1 ++ Itoa port ++ r2) "$$PLACEHOLDER_PORT$$".
Proof.
  intros Hr1. unfold registry_config, accesslog_disabled.
  rewrite Replace1_root, Replace1_port_head.
  rewrite !append_assoc.
  rewrite (Replace1_no_dollar r1 _ _ _ Hr1), Replace1_here.
  rewrite <- (append_assoc (Itoa port)), <- (append_assoc r1).
  destruct (String.eqb logLevel "debug"); apply Replace1_level_access.
Qed.

Lemma registry_config_root_captures_port_witness :
  registry_config "/data/$$PLACEHOLDER_PORT$$/cache" 5000 "info"
  = registry_config_lines "true" "info" "/data/5000/cache" "$$PLACEHOLDER_PORT$$".
Proof.
  apply (registry_config_root_captures_port "/data/" "/cache" "info" 5000).
  reflexivity.
Defined.

(** ** Storage and logs *)

(** X14: [PrepareStorageAndLogs] always returns.  It returns nil exactly
    when the logs directory can be created, the cache directory exists, the
    generated configuration parses and the registry can be constructed; it
    hands over a registry, built from the generated configuration, and
    starts the watcher exactly then.  A log file that cannot be created
    does not make it fail. *)
Theorem PrepareStorageAndLogs_result (E : Env) (S : StorageEnv) (w : World) :
  exists st,
    outcome (PrepareStorageAndLogs E S w) = Returned st
    /\ (setup_err st = None <->
        os_MkdirAll E logsDir = None
        /\ os_Stat S (LocalStorageDisk (exec w)) = None
        /\ configuration_Parse S
             (registry_config (LocalStorageDisk (exec w))
                (mirror.Port (mirror.Global (Opts (exec w))))
                (mirror.LogLevel (mirror.Global (Opts (exec w))))) = None
        /\ registry_NewRegistry S
             (registry_config (LocalStorageDisk (exec w))
                (mirror.Port (mirror.Global (Opts (exec w))))
                (mirror.LogLevel (mirror.Global (Opts (exec w))))) = None)
    /\ watcher_started st = is_nil (setup_err st)
    /\ LocalStorageService st
       = (if is_nil (setup_err st)
          then Some (registry_config (LocalStorageDisk (exec w))
                       (mirror.Port (mirror.Global (Opts (exec w))))
                       (mirror.LogLevel (mirror.Global (Opts (exec w)))))
          else None)
    /\ exec (world (PrepareStorageAndLogs E S w)) = exec w.
Proof.
  exec_go.
  repeat (break_match; cbn);
    eexists; (split; [reflexivity|]); cbn;
    repeat split; try discriminate; try congruence;
    try (intros (H1 & H2 & H3 & H4); congruence).
Qed.

(** ** The log file of the registry *)

Lemma Run_reports_nil_log_file (E : Env) (w : World) (r : option error) :
  registryLogFile w = FileNil ->
  outcome (Run E w) = Returned r ->
  In close_error_nil (events (Run E w)).
Proof.
  intros Hnil. exec_go. rewrite Hnil. cbn.
  repeat (break_match; cbn; try (intros H; discriminate H));
    intros _; repeat (first [left; reflexivity | right]).
Qed.

(** X15: a registry log file that cannot be created does not stop the
    setup, but it leaves the log file handle nil, and the close in
    [cleanUp] then fails: every run that returns after such a setup writes
    "error closing log file logs/registry.log: invalid argument" to the
    standard error stream. *)
Theorem missing_log_file_reported_at_cleanup
  (E : Env) (S : StorageEnv) (w : World) (st : StorageSetup) :
  outcome (PrepareStorageAndLogs E S w) = Returned st ->
  setup_err st = None ->
  os_Create E registryLogFilename <> None ->
  registryLogFile (world (PrepareStorageAndLogs E S w)) = FileNil
  /\ (forall r,
        outcome (Run E (world (PrepareStorageAndLogs E S w))) = Returned r ->
        In close_error_nil (events (Run E (world (PrepareStorageAndLogs E S w))))).
Proof.
  intros Hout Herr Hcreate.
  assert (registryLogFile (world (PrepareStorageAndLogs E S w)) = FileNil) as Hnil.
  { revert Hout. exec_go.
    repeat (break_match; cbn; try congruence);
      intros [= <-]; cbn in Herr; congruence. }
  split; [exact Hnil | intros r; apply Run_reports_nil_log_file; exact Hnil].
Qed.

Lemma missing_log_file_reported_at_cleanup_witness :
  In close_error_nil
     (events (Run env_without_log_file
                (world (PrepareStorageAndLogs env_without_log_file sample_storage_env
                          (mirror_to_disk_world collected_all))))).
Proof.
  destruct (missing_log_file_reported_at_cleanup env_without_log_file
              sample_storage_env (mirror_to_disk_world collected_all)
              (mkStorageSetup None
                 (Some (registry_config "/home/user/.oc-mirror/.cache" 5000 "info"))
                 true))
    as (_ & H).
  - vm_compute. reflexivity.
  - reflexivity.
  - discriminate.
  - apply (H None). vm_compute. reflexivity.
Defined.

(** ** Disk to mirror *)

(** The theorems on the routines and on [Run] are about the flow of the
    goroutine that calls them.  The process, in which the panic of the
    watcher can end that flow at any step after the registry was started,
    is the subject of the section on the commands. *)

(** X16: with an extractor constructed, a disk-to-mirror run starts by
    extracting the archive, once; when the extraction fails the run logs
    and returns that error and does nothing else: no registry is started,
    no collector is called, the extractor is not closed.  Without an
    extractor (what [Complete] leaves when the destination names neither
    protocol) the call of [Unarchive] panics and nothing is done. *)
Theorem RunDiskToMirror_unarchives_first (E : Env) (w : World) :
  (MirrorUnArchiver (exec w) = true ->
   (exists rest, events (RunDiskToMirror E w) = EvUnarchive :: rest)
   /\ count_events is_Unarchive (events (RunDiskToMirror E w)) = 1
   /\ (forall e, MirrorUnArchiver_Unarchive E = Some e ->
         RunDiskToMirror E w
         = mkResult (Returned (Some e)) w
             [EvUnarchive; EvLog LvlError " %v " [AErr e]]))
  /\ (MirrorUnArchiver (exec w) = false ->
      RunDiskToMirror E w = mkResult Panicked w []).
Proof.
  exec_go. split; intros Hu; rewrite Hu; cbn; [| destruct w; reflexivity].
  repeat (break_match; cbn);
    (split; [eexists; reflexivity | split; [reflexivity |]]);
    intros e' He; try discriminate He.
  all: injection He as <-; destruct w; reflexivity.
Qed.

Lemma RunDiskToMirror_unarchives_first_witness :
  RunDiskToMirror (sample_env collected_all all_cached)
    (world (Complete (sample_env collected_all all_cached) ["oci://out"]
              (sample_world "")))
  = mkResult Panicked
      (world (Complete (sample_env collected_all all_cached) ["oci://out"]
                (sample_world "")))
      [].
Proof.
  apply (RunDiskToMirror_unarchives_first (sample_env collected_all all_cached)).
  reflexivity.
Defined.

(** X17: a disk-to-mirror run that returns after the archive was extracted
    has closed the extractor exactly once, as its last step, whichever
    later stage failed; when the extraction fails, or the extractor was
    not constructed, the extractor is never closed. *)
Theorem RunDiskToMirror_closes_extractor (E : Env) (w : World) :
  (forall r, outcome (RunDiskToMirror E w) = Returned r ->
     MirrorUnArchiver_Unarchive E = None ->
     count_events is_UnArchiverClose (events (RunDiskToMirror E w)) = 1
     /\ exists pre, events (RunDiskToMirror E w) = pre ++ [EvUnArchiverClose])
  /\ (MirrorUnArchiver_Unarchive E <> None ->
      count_events is_UnArchiverClose (events (RunDiskToMirror E w)) = 0)
  /\ (MirrorUnArchiver (exec w) = false ->
      count_events is_UnArchiverClose (events (RunDiskToMirror E w)) = 0).
Proof.
  exec_go.
  destruct (MirrorUnArchiver (exec w)); cbn;
    [| repeat split; intros; first [discriminate | reflexivity]].
  destruct (MirrorUnArchiver_Unarchive E) as [e|]; cbn.
  - repeat split; intros; first [discriminate | reflexivity].
  - repeat (break_match; cbn);
      (split; [| split; intros; congruence]); intros r _ _;
      (split; [reflexivity|]);
      match goal with
      | |- exists pre, ?l = pre ++ [?x] =>
          exists (removelast l); cbn; reflexivity
      end.
Qed.

(** X18: in a disk-to-mirror run the cluster resources are generated only
    after the batch worker returned nil, from the very list and options the
    worker was given, and the times are logged only after the generation
    returned nil. *)
Theorem RunDiskToMirror_generates_after_transfer (E : Env) (w : World) :
  precedes (is_successful_transfer E) is_IDMSGenerator (events (RunDiskToMirror E w))
  /\ precedes (is_successful_IDMS E) is_time_log (events (RunDiskToMirror E w))
  /\ (forall imgs opts,
        In (EvIDMSGenerator imgs opts) (events (RunDiskToMirror E w)) ->
        In (EvBatchWorker imgs opts) (events (RunDiskToMirror E w))).
Proof.
  exec_go.
  repeat (break_match; cbn);
    (split; [| split]);
    try (apply precedesb_sound; cbn;
         repeat match goal with
                | H : Batch_Worker E _ _ = None |- _ => rewrite H
                | H : ClusterResources_IDMSGenerator E _ _ = None |- _ => rewrite H
                end; reflexivity);
    intros imgs opts Hin;
    repeat (destruct Hin as [Hin|Hin]; try discriminate Hin);
    try contradiction;
    injection Hin as <- <-; repeat (first [left; reflexivity | right]).
Qed.

(** ** Mirror to disk *)

(** X19: in a mirror-to-disk run the archive is built from the very list
    the batch worker was given, and the archiver is closed exactly when
    [BuildArchive] returned nil: a failed build leaves it unclosed. *)
Theorem RunMirrorToDisk_closes_archiver_after_build (E : Env) (w : World) :
  (forall imgs,
     In (EvBuildArchive imgs) (events (RunMirrorToDisk E w)) ->
     (exists opts, In (EvBatchWorker imgs opts) (events (RunMirrorToDisk E w)))
     /\ count_events is_ArchiverClose (events (RunMirrorToDisk E w))
        = (if is_nil (snd (MirrorArchiver_BuildArchive E imgs)) then 1 else 0))
  /\ (count_events is_BuildArchive (events (RunMirrorToDisk E w)) = 0 ->
      count_events is_ArchiverClose (events (RunMirrorToDisk E w)) = 0).
Proof.
  exec_go.
  repeat (break_match; cbn);
    (split; [| try reflexivity; try discriminate]);
    intros imgs Hin;
    repeat (destruct Hin as [Hin|Hin]; try discriminate Hin);
    try contradiction;
    injection Hin as <-;
    (split; [eexists; repeat (first [left; reflexivity | right]) |]);
    match goal with
    | H : MirrorArchiver_BuildArchive E _ = _ |- _ => rewrite H
    end; reflexivity.
Qed.

(** ** Run *)

Ltac use_mode :=
  try match goal with
      | H : mirror.Mode (Opts (exec _)) = _ |- _ => rewrite H in *
      end.

Ltac split_hyps :=
  repeat match goal with
         | H : _ /\ _ |- _ => destruct H
         | H : _ \/ _ |- _ => destruct H
         end.

(** X20: the main flow of [Run] blocks nowhere but at the send of the
    sentinel: when it blocks, the mode is mirror to disk, collection and
    transfer succeeded and nobody receives on the interrupt channel; no
    archive is built and [cleanUp] never runs.  Conversely, in that
    situation [Run] never returns. *)
Theorem Run_blocks_at_the_send (E : Env) (w : World) :
  (outcome (Run E w) = Blocked ->
     (mirror.IsMirrorToDisk (Opts (exec w)) = true
      /\ first_failure E = None
      /\ Batch_Worker E (collected_images E) (transfer_opts (Opts (exec w))) = None
      /\ watcher_receives E = false)
     /\ cleanUp_runs (events (Run E w)) = 0
     /\ count_events is_BuildArchive (events (Run E w)) = 0)
  /\ (mirror.IsMirrorToDisk (Opts (exec w)) = true ->
      first_failure E = None ->
      Batch_Worker E (collected_images E) (transfer_opts (Opts (exec w))) = None ->
      watcher_receives E = false ->
      forall r, outcome (Run E w) <> Returned r).
Proof.
  unfold first_failure, collected_images, transfer_opts. exec_go.
  unfold mirror.IsMirrorToDisk, set_ImageType, set_MultiArch. cbn.
  repeat (break_match; cbn); use_mode;
    (split; [intros H; try discriminate H; repeat split; congruence
            | intros H1 H2 H3 H4 r; try discriminate; congruence]).
Qed.

(** X21: [Run] returns nil exactly when the component of the mode was
    constructed and every stage of the mode returned nil: collection,
    transfer and, for mirror to disk, the delivery of the sentinel and the
    build of the archive; for the other modes, before them the extraction
    and after them the generation of the cluster resources. *)
Theorem Run_returns_nil_iff (E : Env) (w : World) :
  outcome (Run E w) = Returned None <->
    first_failure E = None
    /\ Batch_Worker E (collected_images E) (transfer_opts (Opts (exec w))) = None
    /\ (if mirror.IsMirrorToDisk (Opts (exec w))
        then watcher_receives E = true
             /\ MirrorArchiver (exec w) = true
             /\ snd (MirrorArchiver_BuildArchive E (collected_images E)) = None
        else MirrorUnArchiver (exec w) = true
             /\ MirrorUnArchiver_Unarchive E = None
             /\ ClusterResources_IDMSGenerator E (collected_images E)
                  (transfer_opts (Opts (exec w))) = None).
Proof.
  unfold first_failure, collected_images, transfer_opts. exec_go.
  unfold mirror.IsMirrorToDisk, set_ImageType, set_MultiArch. cbn.
  repeat (break_match; cbn); use_mode;
    split; intros H; split_hyps; try discriminate; try congruence;
    repeat split; try reflexivity; try assumption.
Qed.

(** X22: a collector's failure ends the run: [Run] returns that collector's
    error as it is and neither transfers, packages nor generates anything
    (in the modes that extract first, provided the extractor was
    constructed and the extraction succeeded). *)
Theorem Run_propagates_collector_error
  (E : Env) (w : World) (c : Collector) (e : error) :
  first_failure E = Some (c, e) ->
  mirror.IsMirrorToDisk (Opts (exec w)) = true
  \/ (MirrorUnArchiver (exec w) = true /\ MirrorUnArchiver_Unarchive E = None) ->
  outcome (Run E w) = Returned (Some e)
  /\ count_events is_BatchWorker (events (Run E w)) = 0
  /\ count_events is_send (events (Run E w)) = 0
  /\ count_events is_BuildArchive (events (Run E w)) = 0
  /\ count_events is_IDMSGenerator (events (Run E w)) = 0.
Proof.
  unfold first_failure. exec_go. unfold mirror.IsMirrorToDisk. cbn.
  intros Hf Hreach.
  repeat (break_match; cbn; try discriminate Hf);
    try (injection Hf as <- <-; repeat split; reflexivity);
    destruct Hreach as [Hr|[Hr1 Hr2]]; congruence.
Qed.

Lemma Run_propagates_collector_error_witness :
  outcome (Run (sample_env collected_operator_fails all_cached)
             (disk_to_mirror_world collected_operator_fails))
  = Returned (Some (errorString "unable to read the operator catalog")).
Proof.
  destruct (Run_propagates_collector_error
              (sample_env collected_operator_fails all_cached)
              (disk_to_mirror_world collected_operator_fails)
              Operator (errorString "unable to read the operator catalog"))
    as (Hout & _).
  - reflexivity.
  - right. split; reflexivity.
  - exact Hout.
Defined.

(** X23: [Run] forces the multi-architecture policy: every call of the
    batch worker and of the cluster resource generator gets the options
    with [MultiArch] set to ["all"], and otherwise the mode, the
    destination and the global options the run started with. *)
Theorem Run_forces_multi_arch
  (E : Env) (w : World) (ev : Event) (opts : mirror.CopyOptions) :
  In ev (events (Run E w)) ->
  call_opts ev = Some opts ->
  mirror.MultiArch opts = "all"
  /\ mirror.Mode opts = mirror.Mode (Opts (exec w))
  /\ mirror.Destination opts = mirror.Destination (Opts (exec w))
  /\ mirror.Global opts = mirror.Global (Opts (exec w)).
Proof.
  exec_go.
  repeat (break_match; cbn;
          try (intros Hin Hc;
               repeat (destruct Hin as [<-|Hin]; try discriminate Hc);
               first [ contradiction
                     | injection Hc as <-; repeat split ])).
Qed.

Lemma Run_forces_multi_arch_witness :
  mirror.MultiArch
    (Opts (exec (world (Run (sample_env collected_all all_cached)
                          (mirror_to_disk_world collected_all))))) = "all".
Proof.
  apply (Run_forces_multi_arch (sample_env collected_all all_cached)
           (mirror_to_disk_world collected_all)
           (EvBatchWorker [r1; r2; o1; a1; a2]
              (Opts (exec (world (Run (sample_env collected_all all_cached)
                                    (mirror_to_disk_world collected_all))))))).
  - vm_compute. repeat (first [left; reflexivity | right]).
  - reflexivity.
Defined.

(** X24: every run that returns ends by removing the logs directory, with
    the registry log file closed (or never opened): nothing of [logs/]
    outlives [Run]. *)
Theorem Run_ends_by_removing_logs (E : Env) (w : World) (r : option error) :
  outcome (Run E w) = Returned r ->
  (exists pre, events (Run E w) = pre ++ [EvRemoveAll logsDir])
  /\ registryLogFile (world (Run E w)) <> FileOpen.
Proof.
  exec_go.
  repeat (break_match; cbn; try (intros H; discriminate H));
    intros _; (split; [| discriminate]);
    match goal with
    | |- exists pre, ?l = pre ++ [?x] => exists (removelast l); cbn; reflexivity
    end.
Qed.

Lemma Run_ends_by_removing_logs_witness :
  registryLogFile (world (Run (sample_env collected_all all_cached)
                            (mirror_to_disk_world collected_all))) <> FileOpen.
Proof.
  destruct (Run_ends_by_removing_logs (sample_env collected_all all_cached)
              (mirror_to_disk_world collected_all) None) as (_ & H).
  - reflexivity.
  - exact H.
Defined.

(** ** The prepare run *)

Lemma count_events_none (P : Event -> bool) (l : list Event) :
  (forall ev, In ev l -> P ev = false) -> count_events P l = 0.
Proof.
  unfold count_events. induction l as [|x l IH]; intros H; [reflexivity|].
  cbn. rewrite (H x) by now left. apply IH. intros ev Hin. apply H. now right.
Qed.

Lemma check_events_kinds (E : Env) (opts : mirror.CopyOptions)
  (imgs : list v1alpha3.CopyImageSchema) (ev : Event) :
  In ev (check_events E opts imgs) -> is_MirrorCheck ev || is_log ev = true.
Proof.
  induction imgs as [|img rest IH]; [intros []|].
  cbn [check_events]. intros [<-|H]; [reflexivity|].
  apply in_app_iff in H as [H|H]; [| exact (IH H)].
  destruct (snd (Mirror_Check E _ opts)); [| destruct H].
  destruct H as [<-|[]]. reflexivity.
Qed.

Lemma missing_events_kinds (entries : list (string * bool)) (ev : Event) :
  In ev (missing_events entries) -> is_log ev = true.
Proof.
  unfold missing_events. rewrite in_map_iff. intros (en & <- & _). reflexivity.
Qed.

(** The checks and the logs of the prepare loop are no events of kind [P]
    when [P] holds of no check and of no log. *)
Lemma count_events_checks (P : Event -> bool) (E : Env) (opts : mirror.CopyOptions)
  (imgs : list v1alpha3.CopyImageSchema) :
  (forall ev, is_MirrorCheck ev || is_log ev = true -> P ev = false) ->
  count_events P (check_events E opts imgs) = 0.
Proof.
  intros HP. apply count_events_none. intros ev Hin.
  apply HP. exact (check_events_kinds E opts imgs ev Hin).
Qed.

Lemma count_events_missing (P : Event -> bool) (entries : list (string * bool)) :
  (forall ev, is_log ev = true -> P ev = false) ->
  count_events P (missing_events entries) = 0.
Proof.
  intros HP. apply count_events_none. intros ev Hin.
  apply HP. exact (missing_events_kinds entries ev Hin).
Qed.

Lemma count_events_verdict (P : Event -> bool) (E : Env) (w : World)
  (all : list v1alpha3.CopyImageSchema) :
  (forall ev, is_log ev = true -> P ev = false) ->
  count_events P (verdict_events E w all) = 0.
Proof.
  intros HP. unfold verdict_events.
  destruct (file_Write E _ _); [reflexivity|].
  destruct (existsb _ _).
  - change (EvLog LvlError "missing images: " [] :: ?l)
      with ([EvLog LvlError "missing images: " []] ++ l).
    rewrite count_events_app, count_events_missing by exact HP.
    unfold count_events. cbn. now rewrite HP.
  - unfold count_events. cbn. now rewrite !HP.
Qed.

Lemma transfer_not_check_or_log (ev : Event) :
  is_MirrorCheck ev || is_log ev = true -> is_transfer ev = false.
Proof. destruct ev; cbn; intros H; try discriminate H; reflexivity. Qed.

Lemma RemoveAll_not_check_or_log (ev : Event) :
  is_MirrorCheck ev || is_log ev = true -> is_RemoveAll ev = false.
Proof. destruct ev; cbn; intros H; try discriminate H; reflexivity. Qed.

Lemma log_is_check_or_log (ev : Event) :
  is_log ev = true -> is_MirrorCheck ev || is_log ev = true.
Proof. intros ->. apply orb_true_r. Qed.

(** The three collectors, one after the other: either one fails first or
    all three hand over a list. *)
Lemma collectors_cases (E : Env) :
  (exists c e, first_failure E = Some (c, e))
  \/ (exists rel ops add,
        collect E Release = (rel, None)
        /\ collect E Operator = (ops, None)
        /\ collect E AdditionalImages = (add, None)).
Proof.
  unfold first_failure.
  destruct (collect E Release) as [rel [e|]]; [left; eauto|].
  destruct (collect E Operator) as [ops [e|]]; [left; eauto|].
  destruct (collect E AdditionalImages) as [add [e|]]; [left; eauto|].
  right. eauto 10.
Qed.

(** A prepare run whose collection fails. *)
Lemma RunPrepare_collection_fails
  (E : Env) (w : World) (c : Collector) (e : error) :
  os_Create E (cachedImagesFilePath E) = None ->
  first_failure E = Some (c, e) ->
  outcome (RunPrepare E w) = Returned (Some e)
  /\ count_events is_transfer (events (RunPrepare E w)) = 0
  /\ count_events is_MirrorCheck (events (RunPrepare E w)) = 0
  /\ count_events is_write (events (RunPrepare E w)) = 0
  /\ In (EvRemoveAll logsDir) (events (RunPrepare E w))
  /\ exists pre, events (RunPrepare E w) = pre ++ [EvClose (cachedImagesFilePath E)].
Proof.
  unfold first_failure, RunPrepare. fold (cachedImagesFilePath E).
  intros HC Hf. exec_go. rewrite HC. cbn.
  repeat (break_match; cbn; try discriminate Hf);
    injection Hf as <- <-;
    repeat split; try reflexivity;
    try (repeat (first [left; reflexivity | right]));
    match goal with
    | |- exists pre, ?l = pre ++ [?x] => exists (removelast l); cbn; reflexivity
    end.
Qed.

(** The flow of [RunPrepare] holds no call that transfers, packages,
    extracts or generates, and no send. *)
Lemma RunPrepare_no_transfer (E : Env) (w : World) :
  count_events is_transfer (events (RunPrepare E w)) = 0.
Proof.
  destruct (os_Create E (cachedImagesFilePath E)) as [e|] eqn:HC.
  - unfold RunPrepare. fold (cachedImagesFilePath E). exec_go. rewrite HC. cbn.
    reflexivity.
  - destruct (collectors_cases E) as [(c & e & Hf) | (rel & ops & add & HR & HO & HA)].
    + destruct (RunPrepare_collection_fails E w c e HC Hf) as (_ & Ht & _).
      exact Ht.
    + destruct (RunPrepare_run E w rel ops add HR HO HA HC) as [_ Hev].
      rewrite Hev, !count_events_app.
      rewrite (count_events_checks is_transfer) by exact transfer_not_check_or_log.
      rewrite (count_events_verdict is_transfer)
        by (intros ev Hl; apply transfer_not_check_or_log, log_is_check_or_log, Hl).
      reflexivity.
Qed.

(** X26: a prepare run stops at the first failure.  When the report file
    cannot be created it returns that error and has done nothing else.
    When a collector fails it returns that collector's error without
    checking or writing anything; the logs directory, with the empty
    report, is removed and the report file is closed last. *)
Theorem RunPrepare_stops_at_first_failure (E : Env) (w : World) :
  (forall e, os_Create E (cachedImagesFilePath E) = Some e ->
             RunPrepare E w
             = mkResult (Returned (Some e)) w [EvCreate (cachedImagesFilePath E)])
  /\ (os_Create E (cachedImagesFilePath E) = None ->
      forall c e, first_failure E = Some (c, e) ->
        outcome (RunPrepare E w) = Returned (Some e)
        /\ count_events is_MirrorCheck (events (RunPrepare E w)) = 0
        /\ count_events is_write (events (RunPrepare E w)) = 0
        /\ In (EvRemoveAll logsDir) (events (RunPrepare E w))
        /\ exists pre, events (RunPrepare E w)
                       = pre ++ [EvClose (cachedImagesFilePath E)]).
Proof.
  split.
  - intros e HC. unfold RunPrepare. fold (cachedImagesFilePath E). exec_go.
    rewrite HC. cbn. destruct w. reflexivity.
  - intros HC c e Hf.
    destruct (RunPrepare_collection_fails E w c e HC Hf)
      as (Hout & _ & Hc & Hw & Hr & Hlast).
    auto.
Qed.

(** X27: when the collection succeeds, the prepare run removes nothing:
    no [os.RemoveAll] is issued, [cleanUp] included, so the report it wrote
    is still in the logs directory when the run returns; its last step is
    the close of the report file. *)
Theorem RunPrepare_keeps_the_report
  (E : Env) (w : World) (rel ops add : list v1alpha3.CopyImageSchema) :
  collect E Release = (rel, None) ->
  collect E Operator = (ops, None) ->
  collect E AdditionalImages = (add, None) ->
  os_Create E (cachedImagesFilePath E) = None ->
  count_events is_RemoveAll (events (RunPrepare E w)) = 0
  /\ exists pre, events (RunPrepare E w) = pre ++ [EvClose (cachedImagesFilePath E)].
Proof.
  intros HR HO HA HC.
  destruct (RunPrepare_run E w rel ops add HR HO HA HC) as [_ Hev].
  rewrite Hev. split.
  - rewrite !count_events_app.
    rewrite (count_events_checks is_RemoveAll) by exact RemoveAll_not_check_or_log.
    rewrite (count_events_verdict is_RemoveAll)
      by (intros ev Hl; apply RemoveAll_not_check_or_log, log_is_check_or_log, Hl).
    reflexivity.
  - eexists. rewrite !app_assoc. reflexivity.
Qed.

Lemma RunPrepare_keeps_the_report_witness :
  count_events is_RemoveAll
    (events (RunPrepare (sample_env collected_three cached_but_a1)
               (prepare_world collected_three))) = 0.
Proof.
  exact (proj1 (RunPrepare_keeps_the_report
                  (sample_env collected_three cached_but_a1)
                  (prepare_world collected_three) [r1] [o1] [a1]
                  eq_refl eq_refl eq_refl eq_refl)).
Defined.

(** ** The commands *)

Lemma count_events_weaker (P Q : Event -> bool) (l : list Event) :
  (forall ev, P ev = true -> Q ev = true) ->
  count_events Q l = 0 -> count_events P l = 0.
Proof.
  intros HPQ. unfold count_events.
  induction l as [|x l IH]; [reflexivity|]. cbn.
  destruct (Q x) eqn:HQ; [discriminate|]. intros H.
  destruct (P x) eqn:HP; [rewrite (HPQ x HP) in HQ; discriminate | exact (IH H)].
Qed.

Lemma transfer_is_work (P : Event -> bool) :
  (forall ev, P ev = true -> is_transfer ev = true) ->
  forall ev, P ev = true -> is_work ev = true.
Proof. intros H ev HP. unfold is_work. now rewrite (H ev HP). Qed.

Lemma Complete_sets_up_only (E : Env) (w : World) (args : list string) :
  count_events is_work (events (Complete E args w)) = 0.
Proof.
  exec_go. repeat (break_match; cbn; try reflexivity).
Qed.

Lemma CompletePrepare_sets_up_only (E : Env) (w : World) (args : list string) :
  count_events is_work (events (CompletePrepare E args w)) = 0.
Proof.
  exec_go. repeat (break_match; cbn; try reflexivity).
Qed.

Lemma PrepareStorageAndLogs_sets_up_only (E : Env) (S : StorageEnv) (w : World) :
  count_events is_work (events (PrepareStorageAndLogs E S w)) = 0
  /\ exec (world (PrepareStorageAndLogs E S w)) = exec w
  /\ exists st, outcome (PrepareStorageAndLogs E S w) = Returned st.
Proof.
  exec_go. repeat (break_match; cbn); repeat split; eexists; reflexivity.
Qed.

Lemma Complete_nil_reaches (E : Env) (w : World) (args : list string) :
  outcome (Complete E args w) = Returned None -> reaches_mode_logic E w.
Proof.
  unfold reaches_mode_logic. exec_go.
  destruct (os_MkdirAll E logsDir); cbn; [discriminate|].
  destruct (config_ReadConfig E _) as [cfg [e|]]; cbn; [discriminate|].
  intros _. split; reflexivity.
Qed.

Lemma Complete_never_panics (E : Env) (w : World) (dest0 : string) (rest : list string) :
  outcome (Complete E (dest0 :: rest) w) <> Panicked.
Proof.
  exec_go. repeat (break_match; cbn; try discriminate).
Qed.

(** After [Validate] and [Complete], the component of the resolved mode
    exists. *)
Lemma Complete_component (E : Env) (w : World) (dest0 : string) (rest : list string) :
  Validate (exec w) (dest0 :: rest) = Returned None ->
  outcome (Complete E (dest0 :: rest) w) = Returned None ->
  if mirror.IsMirrorToDisk (Opts (Complete_exec E (dest0 :: rest) w))
  then MirrorArchiver (Complete_exec E (dest0 :: rest) w) = true
  else MirrorUnArchiver (Complete_exec E (dest0 :: rest) w) = true.
Proof.
  intros Hv. apply Validate_nil_iff in Hv as (_ & Hd & Hf & Hp).
  unfold Complete_exec. exec_go.
  unfold mirror.IsMirrorToDisk, mirror.IsDiskToMirror.
  destruct (gostrings.Contains dest0 fileProtocol) eqn:HF;
    destruct (gostrings.Contains dest0 dockerProtocol) eqn:HD;
    try (destruct (Hd eq_refl) as [Hne _]; destruct (Hne (Hf eq_refl)));
    try (destruct Hp; discriminate);
    repeat (break_match; cbn; try (intros Hout; discriminate Hout));
    intros _; reflexivity.
Qed.

(** The main flow of [Run] panics only at a call on a component that was
    not constructed. *)
Lemma Run_panics_without_component (E : Env) (w : World) :
  outcome (Run E w) = Panicked ->
  if mirror.IsMirrorToDisk (Opts (exec w))
  then MirrorArchiver (exec w) = false
  else MirrorUnArchiver (exec w) = false.
Proof.
  exec_go. unfold mirror.IsMirrorToDisk. cbn.
  repeat (break_match; cbn; try (intros H; discriminate H));
    intros _; first [reflexivity | assumption].
Qed.

(** What a run that returned nil has done. *)
Lemma Run_nil_events (E : Env) (w : World) :
  outcome (Run E w) = Returned None ->
  count_events is_BatchWorker (events (Run E w)) = 1
  /\ (if mirror.IsMirrorToDisk (Opts (exec w))
      then count_events is_BuildArchive (events (Run E w)) = 1
           /\ count_events is_ArchiverClose (events (Run E w)) = 1
           /\ count_events is_Unarchive (events (Run E w)) = 0
      else count_events is_Unarchive (events (Run E w)) = 1
           /\ count_events is_IDMSGenerator (events (Run E w)) = 1
           /\ count_events is_BuildArchive (events (Run E w)) = 0).
Proof.
  exec_go. unfold mirror.IsMirrorToDisk. cbn.
  repeat (break_match; cbn; try (intros H; discriminate H));
    intros _; repeat split; reflexivity.
Qed.

(** *** The watcher beside the main flow *)

Lemma count_events_prefix (P : Event -> bool) (cut post : list Event) :
  count_events P (cut ++ post) = 0 -> count_events P cut = 0.
Proof. rewrite count_events_app. lia. Qed.

Lemma reach_prefix (delay : nat) (tr : list Event) :
  forall cut, reach delay tr = Some cut ->
    (exists post, tr = cut ++ post /\ post <> [])
    /\ count_events is_send cut = 0.
Proof.
  revert delay. induction tr as [|ev rest IH]; intros delay cut; [discriminate|].
  destruct delay as [|k]; cbn [reach].
  - intros [= <-]. split; [exists (ev :: rest); split; [reflexivity | discriminate]
                          | reflexivity].
  - destruct (reach k rest) as [cut'|] eqn:Hr;
      destruct ev; cbn; intros H; try discriminate H;
      injection H as <-;
      destruct (IH k cut' Hr) as ((post & -> & Hpost) & Hsend);
      (split; [exists post; split; [reflexivity | exact Hpost] | exact Hsend]).
Qed.

Lemma strike_prefix (delay : nat) (tr : list Event) :
  forall cut, strike delay tr = Some cut ->
    (exists post, tr = cut ++ post /\ post <> [])
    /\ In EvGoStartLocalRegistry cut
    /\ count_events is_send cut = 0.
Proof.
  induction tr as [|ev rest IH]; intros cut; [discriminate|].
  destruct ev; cbn [strike]; try discriminate;
    try (destruct (strike delay rest) as [cut'|]; cbn; intros H; try discriminate H;
         injection H as <-;
         destruct (IH cut' eq_refl) as ((post & -> & Hpost) & Hgo & Hsend);
         (split; [exists post; split; [reflexivity | exact Hpost]
                 | split; [right; exact Hgo | exact Hsend]])).
  destruct (reach delay rest) as [cut'|] eqn:Hr; cbn; intros H; try discriminate H.
  injection H as <-.
  destruct (reach_prefix delay rest cut' Hr) as ((post & -> & Hpost) & Hsend).
  split; [exists post; split; [reflexivity | exact Hpost]
         | split; [left; reflexivity | exact Hsend]].
Qed.

(** Beside the watcher the main flow runs to its end, or the process ends
    in the panic of the watcher: the registry had been started, what
    [ListenAndServe] returned is an error other than the sentinel, and the
    main flow is cut before its end and before a send completes. *)
Lemma beside_watcher_cases {A} (S : StorageEnv) (st : StorageSetup) (main : M A)
  (w : World) :
  beside_watcher S st main w = main w
  \/ exists err cut post,
       watcher_started st = true
       /\ registry_ListenAndServe S = Some (Some err)
       /\ errors_Is_NormalStorageInterrupt err = false
       /\ events (main w) = cut ++ post /\ post <> []
       /\ In EvGoStartLocalRegistry cut
       /\ count_events is_send cut = 0
       /\ beside_watcher S st main w = mkResult Panicked w cut.
Proof.
  unfold beside_watcher, startLocalRegistry, panicOnRegistryError.
  destruct (watcher_started st); [| now left].
  destruct (registry_ListenAndServe S) as [[err|]|]; try (now left).
  destruct (errors_Is_NormalStorageInterrupt err) eqn:Herr; cbn; [now left|].
  destruct (strike (watcher_delay S) (events (main w))) as [cut|] eqn:Hs; [| now left].
  destruct (strike_prefix _ _ cut Hs) as ((post & Hev & Hpost) & Hgo & Hsend).
  right. exists err, cut, post. repeat split; assumption.
Qed.

(** What is not in the main flow is not in the process. *)
Lemma beside_watcher_count (P : Event -> bool) {A} (S : StorageEnv) (st : StorageSetup)
  (main : M A) (w : World) :
  count_events P (events (main w)) = 0 ->
  count_events P (events (beside_watcher S st main w)) = 0.
Proof.
  destruct (beside_watcher_cases S st main w)
    as [Heq | (err & cut & post & _ & _ & _ & Hev & _ & _ & _ & Heq)];
    rewrite Heq; [tauto|].
  rewrite Hev. apply count_events_prefix.
Qed.

Lemma bind_count (P : Event -> bool) {A B} (m : M A) (k : A -> M B) (w : World) :
  count_events P (events (m w)) = 0 ->
  (forall a w1, count_events P (events (k a w1)) = 0) ->
  count_events P (events (mbind k m w)) = 0.
Proof.
  intros Hm Hk. unfold mbind, M_bind.
  destruct (m w) as [[a| |] w1 ev1]; cbn [events] in *; try exact Hm.
  specialize (Hk a w1). destruct (k a w1) as [out w2 ev2]. cbn [events] in *.
  rewrite count_events_app, Hm, Hk. reflexivity.
Qed.

Lemma exit_status_count (P : Event -> bool) (err : option error) (w : World) :
  (forall ev, is_log ev = true -> P ev = false) ->
  count_events P (events (exit_status err w)) = 0.
Proof.
  intros HP. destruct err as [e|]; [| reflexivity].
  unfold exit_status, count_events. exec_go. now rewrite HP.
Qed.

(** *** The mirror command *)

(** The closure, stage by stage. *)
Lemma mirrorCmd_Run_stages (E : Env) (S : StorageEnv) (args : list string) (w : World) :
  Validate (exec w) args = Returned None ->
  outcome (mirrorCmd_Run E S args w) = Returned 0%Z ->
  outcome (Complete E args w) = Returned None
  /\ outcome (Run E (world (PrepareStorageAndLogs E S (world (Complete E args w)))))
     = Returned None
  /\ events (mirrorCmd_Run E S args w)
     = events (Complete E args w)
       ++ events (PrepareStorageAndLogs E S (world (Complete E args w)))
       ++ events (Run E (world (PrepareStorageAndLogs E S (world (Complete E args w))))).
Proof.
  intros Hv. unfold mirrorCmd_Run, mbind, M_bind, mret, M_ret, get_o, emit.
  rewrite Hv.
  destruct (Complete E args w) as [[[e1|]| |] w1 ev1]; cbn [outcome world events];
    try discriminate.
  destruct (PrepareStorageAndLogs E S w1) as [[st| |] w2 ev2];
    cbn [outcome world events]; try discriminate.
  destruct (setup_err st); cbn [outcome world events]; [discriminate|].
  match goal with
  | |- context [beside_watcher S st ?m w2] =>
      destruct (beside_watcher_cases S st m w2)
        as [Heq | (err & cut & post & _ & _ & _ & _ & _ & _ & _ & Heq)];
      rewrite Heq; clear Heq; [| discriminate]
  end.
  unfold exit_status, mbind, M_bind, mret, M_ret, emit. cbv beta.
  destruct (Run E w2) as [[[e3|]| |] w3 ev3]; cbn [outcome world events];
    try discriminate.
  intros _. rewrite !app_nil_r. repeat split.
Qed.

(** X28: [Validate] comes first and protects what follows.  When it
    rejects the arguments the command logs the error and exits with status
    1 without any other effect.  On a non-empty argument list nothing in
    the main flow of the command panics: the command panics only through
    its watcher, when the registry has been started, [ListenAndServe] has
    returned an error other than the sentinel and the sentinel has not
    been delivered. *)
Theorem mirrorCmd_validates_first
  (E : Env) (S : StorageEnv) (w : World) (dest0 : string) (rest : list string) :
  (forall e, Validate (exec w) (dest0 :: rest) = Returned (Some e) ->
             mirrorCmd_Run E S (dest0 :: rest) w
             = mkResult (Returned 1%Z) w [EvLog LvlError "%v " [AErr e]])
  /\ (outcome (mirrorCmd_Run E S (dest0 :: rest) w) = Panicked ->
      (exists err, registry_ListenAndServe S = Some (Some err)
                   /\ errors_Is_NormalStorageInterrupt err = false)
      /\ In EvGoStartLocalRegistry (events (mirrorCmd_Run E S (dest0 :: rest) w))
      /\ count_events is_send (events (mirrorCmd_Run E S (dest0 :: rest) w)) = 0).
Proof.
  split.
  { intros e Hv. unfold mirrorCmd_Run, mbind, M_bind, mret, M_ret, get_o, emit.
    rewrite Hv. destruct w. reflexivity. }
  pose proof (Complete_never_panics E w dest0 rest) as HC.
  pose proof (Complete_component E w dest0 rest) as Hcomp.
  pose proof (Complete_sets_up_only E w (dest0 :: rest)) as Hev1.
  destruct (Validate_returns (exec w) dest0 rest) as (r & Hv & _).
  unfold mirrorCmd_Run, mbind, M_bind, mret, M_ret, get_o, emit.
  rewrite Hv in *. destruct r as [e|]; [discriminate|].
  specialize (Hcomp eq_refl). unfold Complete_exec in Hcomp.
  destruct (Complete E (dest0 :: rest) w) as [[[e1|]| |] w1 ev1];
    cbn [outcome world events] in *; try discriminate; try congruence.
  specialize (Hcomp eq_refl).
  destruct (PrepareStorageAndLogs_sets_up_only E S w1) as (Hev2 & Hexec & st & Hst).
  destruct (PrepareStorageAndLogs E S w1) as [out2 w2 ev2].
  cbn [outcome world events] in *. subst out2.
  destruct (setup_err st); cbn [outcome world events]; [discriminate|].
  rewrite <- Hexec in Hcomp.
  match goal with
  | |- context [beside_watcher S st ?m w2] =>
      destruct (beside_watcher_cases S st m w2)
        as [Heq | (err & cut & post & _ & HL & Herr & _ & _ & Hgo & Hsend & Heq)];
      rewrite Heq; clear Heq
  end.
  - pose proof (Run_panics_without_component E w2) as HR.
    unfold exit_status, mbind, M_bind, mret, M_ret, emit. cbv beta.
    destruct (Run E w2) as [[[e3|]| |] w3 ev3]; cbn [outcome world events] in *;
      try discriminate.
    intros _. specialize (HR eq_refl).
    destruct (mirror.IsMirrorToDisk (Opts (exec w2))); congruence.
  - cbn [outcome world events]. intros _. split; [exists err; split; assumption|].
    split.
    + rewrite !in_app_iff. tauto.
    + rewrite !count_events_app, Hsend.
      rewrite (count_events_weaker is_send is_work ev1), (count_events_weaker is_send is_work ev2);
        first [ reflexivity | assumption
              | intros ev; destruct ev; cbn; intros H; now try discriminate H ].
Qed.

Lemma mirrorCmd_validates_first_witness :
  In EvGoStartLocalRegistry
     (events (mirrorCmd_Run (sample_env collected_all all_cached)
                storage_env_port_in_use ["file://out"] (sample_world ""))).
Proof.
  destruct (mirrorCmd_validates_first (sample_env collected_all all_cached)
              storage_env_port_in_use (sample_world "") "file://out" [])
    as (_ & H).
  destruct H as (_ & Hgo & _); [vm_compute; reflexivity | exact Hgo].
Defined.

Lemma mirrorCmd_zero_validated
  (E : Env) (S : StorageEnv) (w : World) (args : list string) :
  outcome (mirrorCmd_Run E S args w) = Returned 0%Z ->
  Validate (exec w) args = Returned None.
Proof.
  unfold mirrorCmd_Run, mbind, M_bind, mret, M_ret, get_o, emit, block, panic.
  destruct (Validate (exec w) args) as [[e|]| |]; cbn; try discriminate. reflexivity.
Qed.

(** The events of the stages before the run count for nothing in [P]. *)
Lemma mirrorCmd_counts (P : Event -> bool)
  (E : Env) (S : StorageEnv) (w : World) (args : list string) :
  (forall ev, P ev = true -> is_transfer ev = true) ->
  outcome (mirrorCmd_Run E S args w) = Returned 0%Z ->
  count_events P (events (mirrorCmd_Run E S args w))
  = count_events P
      (events (Run E (world (PrepareStorageAndLogs E S (world (Complete E args w)))))).
Proof.
  intros HP Hout.
  destruct (mirrorCmd_Run_stages E S args w (mirrorCmd_zero_validated E S w args Hout) Hout)
    as (_ & _ & Hev).
  rewrite Hev, !count_events_app.
  rewrite (count_events_weaker P is_work _ (transfer_is_work P HP)
             (Complete_sets_up_only E w args)).
  rewrite (count_events_weaker P is_work _ (transfer_is_work P HP)
             (proj1 (PrepareStorageAndLogs_sets_up_only E S _))).
  reflexivity.
Qed.

(** X29: what the exit status 0 of the mirror command stands for.  For a
    [file://] destination the images were transferred in one call of the
    batch worker and one archive was built and closed, nothing was
    extracted; for a [docker://] destination the archive was extracted,
    the images were transferred and the cluster resources generated, no
    archive was built. *)
Theorem mirrorCmd_exit_zero
  (E : Env) (S : StorageEnv) (w : World) (dest0 : string) (rest : list string) :
  outcome (mirrorCmd_Run E S (dest0 :: rest) w) = Returned 0%Z ->
  Validate (exec w) (dest0 :: rest) = Returned None
  /\ count_events is_BatchWorker (events (mirrorCmd_Run E S (dest0 :: rest) w)) = 1
  /\ (gostrings.Contains dest0 fileProtocol = true ->
      count_events is_BuildArchive (events (mirrorCmd_Run E S (dest0 :: rest) w)) = 1
      /\ count_events is_ArchiverClose (events (mirrorCmd_Run E S (dest0 :: rest) w)) = 1
      /\ count_events is_Unarchive (events (mirrorCmd_Run E S (dest0 :: rest) w)) = 0)
  /\ (gostrings.Contains dest0 dockerProtocol = true ->
      count_events is_Unarchive (events (mirrorCmd_Run E S (dest0 :: rest) w)) = 1
      /\ count_events is_IDMSGenerator (events (mirrorCmd_Run E S (dest0 :: rest) w)) = 1
      /\ count_events is_BuildArchive (events (mirrorCmd_Run E S (dest0 :: rest) w)) = 0).
Proof.
  intros Hout.
  pose proof (mirrorCmd_zero_validated E S w _ Hout) as Hv.
  destruct (mirrorCmd_Run_stages E S _ w Hv Hout) as (HC & HR & _).
  rewrite !(mirrorCmd_counts _ E S w _) by
    first [ exact Hout | intros ev; destruct ev; cbn; intros H; now try discriminate H ].
  set (w2 := world (PrepareStorageAndLogs E S (world (Complete E (dest0 :: rest) w)))) in *.
  destruct (Run_nil_events E w2 HR) as (Hworker & Hmode).
  assert (mirror.Mode (Opts (exec w2))
          = mirror.Mode (Opts (Complete_exec E (dest0 :: rest) w))) as Hw2.
  { unfold w2, Complete_exec.
    now rewrite (proj1 (proj2 (PrepareStorageAndLogs_sets_up_only E S _))). }
  destruct (Complete_options E w dest0 rest (Complete_nil_reaches E w _ HC)) as (Hm & _).
  rewrite <- Hw2 in Hm. unfold mirror.IsMirrorToDisk in Hmode. rewrite Hm in Hmode.
  apply Validate_nil_iff in Hv as Hshape. destruct Hshape as (_ & Hd & Hf & Hp).
  split; [exact Hv | split; [exact Hworker |]].
  destruct (gostrings.Contains dest0 fileProtocol) eqn:HF;
    destruct (gostrings.Contains dest0 dockerProtocol) eqn:HD.
  - destruct (Hd eq_refl) as [Hne _]. destruct (Hne (Hf eq_refl)).
  - split; [intros _; exact Hmode | discriminate].
  - split; [discriminate | intros _; exact Hmode].
  - destruct Hp; discriminate.
Qed.

Lemma mirrorCmd_exit_zero_witness :
  count_events is_BuildArchive
    (events (mirrorCmd_Run (sample_env collected_all all_cached) sample_storage_env
               ["file://out"] (sample_world ""))) = 1.
Proof.
  destruct (mirrorCmd_exit_zero (sample_env collected_all all_cached)
              sample_storage_env (sample_world "") "file://out" [])
    as (_ & _ & Hfile & _).
  - vm_compute. reflexivity.
  - destruct (Hfile eq_refl) as (H & _). exact H.
Defined.

(** *** The prepare command *)

(** X25: the prepare run is read-only.  Whatever the collectors and the
    checks answer, [RunPrepare] never calls the batch worker, the archiver,
    the extractor or the cluster resource generator and never sends on the
    interrupt channel; nor does the prepare command, whether it exits or
    is ended by the watcher. *)
Theorem RunPrepare_transfers_nothing (E : Env) (w : World) :
  count_events is_transfer (events (RunPrepare E w)) = 0
  /\ (forall S args, count_events is_transfer (events (prepareCmd_Run E S args w)) = 0).
Proof.
  split; [apply RunPrepare_no_transfer|].
  intros S args.
  assert (forall ev, is_transfer ev = true -> is_work ev = true) as Hwork
    by (apply transfer_is_work; tauto).
  assert (forall ev, is_log ev = true -> is_transfer ev = false) as Hlog
    by (intros ev Hl; apply transfer_not_check_or_log, log_is_check_or_log, Hl).
  unfold prepareCmd_Run.
  apply bind_count; [reflexivity|]. intros o w0.
  destruct (ValidatePrepare o args); [reflexivity|].
  apply bind_count;
    [apply (count_events_weaker _ is_work _ Hwork), CompletePrepare_sets_up_only|].
  intros [e1|] w1; [reflexivity|].
  apply bind_count;
    [apply (count_events_weaker _ is_work _ Hwork), PrepareStorageAndLogs_sets_up_only|].
  intros st w2. destruct (setup_err st); [reflexivity|].
  apply beside_watcher_count, bind_count; [apply RunPrepare_no_transfer|].
  intros err w3. apply exit_status_count, Hlog.
Qed.

Lemma ValidatePrepare_nil_contains (o : ExecutorSchema) (args : list string) :
  ValidatePrepare o args = None ->
  gostrings.Contains (mirror.From (mirror.Global (Opts o))) fileProtocol = true.
Proof.
  unfold ValidatePrepare.
  destruct (String.length _ =? 0)%nat; [discriminate|].
  destruct (String.eqb _ ""); [discriminate|].
  destruct (gostrings.Contains _ fileProtocol); [reflexivity | discriminate].
Qed.

Lemma CompletePrepare_returns_validated
  (E : Env) (w : World) (args : list string) :
  ValidatePrepare (exec w) args = None ->
  exists r, outcome (CompletePrepare E args w) = Returned r.
Proof.
  intros Hv. apply ValidatePrepare_nil_contains in Hv.
  apply Contains_file_sep in Hv.
  destruct (SplitFrom_two "://" _ ltac:(discriminate) "" Hv) as (a & b & l & Hs).
  fold (gostrings.Split (mirror.From (mirror.Global (Opts (exec w)))) "://") in Hs.
  exec_go. destruct (os_MkdirAll E logsDir); cbn; [eexists; reflexivity|].
  destruct (config_ReadConfig E _) as [cfg [e|]]; cbn; [eexists; reflexivity|].
  rewrite Hs. cbn.
  repeat (break_match; cbn; try (eexists; reflexivity)).
Qed.

Lemma CompletePrepare_keeps_LocalStorageDisk
  (E : Env) (w : World) (args : list string) :
  LocalStorageDisk (exec (world (CompletePrepare E args w))) = LocalStorageDisk (exec w).
Proof.
  exec_go. repeat (break_match; cbn; try reflexivity).
Qed.

Lemma PrepareStorageAndLogs_fails_without_cache
  (E : Env) (S : StorageEnv) (w : World) :
  os_Stat S (LocalStorageDisk (exec w)) <> None ->
  exists st e,
    outcome (PrepareStorageAndLogs E S w) = Returned st
    /\ setup_err st = Some e
    /\ count_events is_work (events (PrepareStorageAndLogs E S w)) = 0.
Proof.
  intros Hstat. exec_go.
  destruct (os_MkdirAll E logsDir); cbn; [do 2 eexists; repeat split|].
  destruct (os_Stat S _); [| congruence]. cbn. do 2 eexists. repeat split.
Qed.

(** X30: the prepare command tests the cache directory as it finds it:
    [CompletePrepare] does not resolve [LocalStorageDisk], so
    [PrepareStorageAndLogs] stats the value the executor had before the
    command (the empty path, for the executor the command constructs).
    When that path does not exist the command exits with status 1 and has
    started no registry, called no collector and checked no image. *)
Theorem prepareCmd_needs_resolved_cache
  (E : Env) (S : StorageEnv) (w : World) (args : list string) :
  ValidatePrepare (exec w) args = None ->
  os_Stat S (LocalStorageDisk (exec w)) <> None ->
  outcome (prepareCmd_Run E S args w) = Returned 1%Z
  /\ count_events is_work (events (prepareCmd_Run E S args w)) = 0.
Proof.
  intros Hv Hstat.
  destruct (CompletePrepare_returns_validated E w args Hv) as (r & Hr).
  pose proof (CompletePrepare_sets_up_only E w args) as Hev1.
  pose proof (CompletePrepare_keeps_LocalStorageDisk E w args) as Hdisk.
  unfold prepareCmd_Run, mbind, M_bind, mret, M_ret, get_o, emit.
  rewrite Hv.
  destruct (CompletePrepare E args w) as [out1 w1 ev1].
  cbn [outcome world events] in *. subst out1. destruct r as [e1|].
  - cbv beta iota. cbn [outcome events]. split; [reflexivity|].
    rewrite !count_events_app, Hev1. reflexivity.
  - rewrite <- Hdisk in Hstat.
    destruct (PrepareStorageAndLogs_fails_without_cache E S w1 Hstat)
      as (st & e & Hout & Herr & Hev2).
    destruct (PrepareStorageAndLogs E S w1) as [out2 w2 ev2].
    cbn [outcome world events] in *. subst out2. rewrite Herr.
    cbv beta iota. cbn [outcome world events]. split; [reflexivity|].
    rewrite !count_events_app, Hev1, Hev2. reflexivity.
Qed.

Lemma prepareCmd_needs_resolved_cache_witness :
  outcome (prepareCmd_Run (sample_env collected_all all_cached)
             storage_env_without_cache [] (sample_world "file:///mnt/disk"))
  = Returned 1%Z.
Proof.
  destruct (prepareCmd_needs_resolved_cache (sample_env collected_all all_cached)
              storage_env_without_cache (sample_world "file:///mnt/disk") [])
    as (Hout & _).
  - reflexivity.
  - discriminate.
  - exact Hout.
Defined.
